(** * xpu_monitor: a shallow embedding of [xpu_monitor.py]

    The program polls an external metrics tool, parses its CSV stream into
    per-device samples and redraws a dashboard.  This development embeds the
    pure parts and the control flow of the script and states the properties
    of its specification over that embedding.

    Conventions.
    - A Python [str] is a [string] holding the UTF-8 bytes of the text.
    - A Python [float] is an IEEE 754 binary64 value: [spec_float] with the
      operations of the standard library instantiated at [prec = 53],
      [emax = 1024].
    - A Python [int] is a [Z].
    - A function that may raise returns a [result]; [Raise e] is the
      exception leaving the function.
    - A Python [dict] is an association list in insertion order. *)

From Stdlib Require Import ZArith NArith Lia List String Ascii Bool.
From Stdlib Require Import DecimalString DecimalPos Sorting.Sorted Sorting.Permutation.
From Stdlib Require Import Floats.SpecFloat.
Import ListNotations.

Local Open Scope Z_scope.
Local Open Scope string_scope.

(** ** Exceptions *)

Inductive exn : Type :=
| FileNotFoundError (msg : string)
| OSError
| CalledProcessError
| JSONDecodeError
| CsvError
| ValueError
| TypeError
| AttributeError
| OverflowError
| ZeroDivisionError
| KeyError.

Inductive result (A : Type) : Type :=
| Ok (a : A)
| Raise (e : exn).

Arguments Ok {A} a.
Arguments Raise {A} e.

Definition bind {A B : Type} (c : result A) (k : A -> result B) : result B :=
  match c with
  | Ok a => k a
  | Raise e => Raise e
  end.

Declare Scope result_scope.
Delimit Scope result_scope with result.
Notation "x <- c ;; k" := (bind c (fun x => k))
  (at level 61, c at next level, right associativity) : result_scope.
Local Open Scope result_scope.

(** ** Python strings *)

Module PyStr.

Definition code (c : ascii) : N := N_of_ascii c.

Definition between (lo hi : N) (c : ascii) : bool :=
  (N.leb lo (code c) && N.leb (code c) hi)%bool.

Definition is_digit (c : ascii) : bool := between 48 57 c.

(** [str.isspace] on the ASCII range: TAB..CR, FS..US and SPACE. *)
Definition is_space (c : ascii) : bool :=
  (between 9 13 c || between 28 32 c)%bool.

(** The non-ASCII white space of [str.strip()], as UTF-8: U+0085, U+00A0
    (two bytes) and U+1680, U+2000..U+200A, U+2028, U+2029, U+202F,
    U+205F, U+3000 (three bytes). *)
Definition is_space2 (a b : ascii) : bool :=
  (N.eqb (code a) 194 && (N.eqb (code b) 133 || N.eqb (code b) 160))%bool.

Definition is_space3 (a b c : ascii) : bool :=
  let x := code a in let y := code b in let z := code c in
  ((N.eqb x 225 && N.eqb y 154 && N.eqb z 128)
   || (N.eqb x 226 && N.eqb y 128
       && (between 128 138 c || N.eqb z 168 || N.eqb z 169 || N.eqb z 175))
   || (N.eqb x 226 && N.eqb y 129 && N.eqb z 159)
   || (N.eqb x 227 && N.eqb y 128 && N.eqb z 128))%bool.

Fixpoint lstrip_l (l : list ascii) : list ascii :=
  match l with
  | a :: t =>
      if is_space a then lstrip_l t
      else match t with
           | b :: u =>
               if is_space2 a b then lstrip_l u
               else match u with
                    | c :: v => if is_space3 a b c then lstrip_l v else l
                    | [] => l
                    end
           | [] => l
           end
  | [] => []
  end.

(** The same scan over the reversed text: the bytes of a character come
    last byte first. *)
Fixpoint lstrip_rev (l : list ascii) : list ascii :=
  match l with
  | a :: t =>
      if is_space a then lstrip_rev t
      else match t with
           | b :: u =>
               if is_space2 b a then lstrip_rev u
               else match u with
                    | c :: v => if is_space3 c b a then lstrip_rev v else l
                    | [] => l
                    end
           | [] => l
           end
  | [] => []
  end.

Definition lstrip (s : string) : string :=
  string_of_list_ascii (lstrip_l (list_ascii_of_string s)).

Definition rstrip (s : string) : string :=
  string_of_list_ascii (rev (lstrip_rev (rev (list_ascii_of_string s)))).

(** [s.strip()] *)
Definition strip (s : string) : string := rstrip (lstrip s).

Fixpoint mem (c : ascii) (cs : list ascii) : bool :=
  match cs with
  | [] => false
  | d :: t => (Ascii.eqb c d || mem c t)%bool
  end.

Fixpoint drop_in (cs l : list ascii) : list ascii :=
  match l with
  | a :: t => if mem a cs then drop_in cs t else l
  | [] => []
  end.

(** [s.strip(chars)] for ASCII [chars]. *)
Definition strip_chars (chars s : string) : string :=
  let cs := list_ascii_of_string chars in
  string_of_list_ascii
    (rev (drop_in cs (rev (drop_in cs (list_ascii_of_string s))))).

Fixpoint strip_prefix (p s : string) : option string :=
  match p, s with
  | EmptyString, _ => Some s
  | String a p', String b s' => if Ascii.eqb a b then strip_prefix p' s' else None
  | String _ _, EmptyString => None
  end.

(** [s.replace(old, '')] for a non-empty [old]: occurrences are deleted
    left to right, without overlap.  [fuel] bounds the scan. *)
Fixpoint remove_all_fuel (fuel : nat) (old s : string) : string :=
  match fuel with
  | O => s
  | S fuel' =>
      match strip_prefix old s with
      | Some rest => remove_all_fuel fuel' old rest
      | None =>
          match s with
          | EmptyString => EmptyString
          | String a t => String a (remove_all_fuel fuel' old t)
          end
      end
  end.

Definition remove_all (old s : string) : string :=
  remove_all_fuel (S (String.length s)) old s.

(** [sep.join(parts)] *)
Fixpoint join (sep : string) (parts : list string) : string :=
  match parts with
  | [] => ""
  | [p] => p
  | p :: rest => p ++ sep ++ join sep rest
  end.

(** [s * n]; a count below one gives the empty string. *)
Definition repeat (s : string) (n : Z) : string :=
  String.concat "" (List.repeat s (Z.to_nat n)).

Definition nonempty (s : string) : bool :=
  match s with EmptyString => false | _ => true end.

(** [str(n)] for an [int]. *)
Definition of_Z (z : Z) : string := NilZero.string_of_int (Z.to_int z).

Definition of_N (n : N) : string := NilZero.string_of_uint (N.to_uint n).

(** Right-justify in a field of [w] characters, padding with [pad]. *)
Definition rjust (w : nat) (pad : string) (s : string) : string :=
  String.concat "" (List.repeat pad (w - String.length s)%nat) ++ s.

Definition NL : string := String "010" "".

(** [s.splitlines()]: a line ends at LF, CR, CR LF, VT, FF, FS, GS, RS,
    U+0085, U+2028 or U+2029; the line ends are dropped and a final line
    end opens no further line. *)
Fixpoint splitlines_l (cur : list ascii) (l : list ascii) : list string :=
  let close := string_of_list_ascii (rev cur) in
  match l with
  | [] => match cur with [] => [] | _ => [close] end
  | a :: t =>
      if Ascii.eqb a "013" then
        match t with
        | b :: u => if Ascii.eqb b "010" then close :: splitlines_l [] u
                    else close :: splitlines_l [] t
        | [] => [close]
        end
      else if (between 10 12 a || between 28 30 a)%bool then
        close :: splitlines_l [] t
      else
        match t with
        | b :: u =>
            if (N.eqb (code a) 194 && N.eqb (code b) 133)%bool
            then close :: splitlines_l [] u
            else
              match u with
              | c :: v =>
                  if (N.eqb (code a) 226 && N.eqb (code b) 128
                      && (N.eqb (code c) 168 || N.eqb (code c) 169))%bool
                  then close :: splitlines_l [] v
                  else splitlines_l (a :: cur) t
              | [] => splitlines_l (a :: cur) t
              end
        | [] => splitlines_l (a :: cur) t
        end
  end.

Definition splitlines (s : string) : list string :=
  splitlines_l [] (list_ascii_of_string s).

(** [max(parts, default=d)] on strings: the first greatest element. *)
Definition max_default (parts : list string) (d : string) : string :=
  match parts with
  | [] => d
  | p :: rest => fold_left (fun m x => if String.ltb m x then x else m) rest p
  end.

Definition lower (c : ascii) : ascii :=
  if between 65 90 c then ascii_of_N (code c + 32) else c.

Definition lower_l (l : list ascii) : list ascii := List.map lower l.

End PyStr.

(** ** Python floats: IEEE 754 binary64 *)

Module PyFloat.

Definition prec : Z := 53.
Definition emax : Z := 1024.

Definition float : Type := spec_float.

Definition zero : float := S754_zero false.
Definition nan : float := S754_nan.
Definition inf (neg : bool) : float := S754_infinity neg.

(** The float nearest to an integer (round half to even); an integer beyond
    the range rounds to an infinity. *)
Definition round_Z (z : Z) : float := binary_normalize prec emax z 0 false.

(** The float nearest to [(-1)^neg * d * 10^e]. *)
Definition of_decimal (neg : bool) (d : N) (e : Z) : float :=
  match d with
  | N0 => S754_zero neg
  | Npos p =>
      match e with
      | Zneg k =>
          SFdiv prec emax (S754_finite neg p 0)
                (S754_finite false (Pos.pow 10 k) 0)
      | _ => binary_round prec emax neg (p * Z.to_pos (10 ^ e))%positive 0
      end
  end.

Definition ltb (a b : float) : bool := SFltb a b.
Definition leb (a b : float) : bool := SFleb a b.
Definition gtb (a b : float) : bool := SFltb b a.
Definition geb (a b : float) : bool := SFleb b a.

Definition is_zero (a : float) : bool :=
  match a with S754_zero _ => true | _ => false end.

(** [bool(x)]: every float but the two zeros is true. *)
Definition truthy (a : float) : bool := negb (is_zero a).

Definition mul (a b : float) : float := SFmul prec emax a b.

(** [a / b]; Python raises on a zero divisor. *)
Definition truediv (a b : float) : result float :=
  if is_zero b then Raise ZeroDivisionError else Ok (SFdiv prec emax a b).

(** Conversion of an [int] operand in mixed arithmetic. *)
Definition of_int (z : Z) : result float :=
  match round_Z z with
  | S754_infinity _ => Raise OverflowError
  | f => Ok f
  end.

(** [int(x)]: truncation toward zero. *)
Definition to_int (a : float) : result Z :=
  match a with
  | S754_zero _ => Ok 0
  | S754_nan => Raise ValueError
  | S754_infinity _ => Raise OverflowError
  | S754_finite s m e => Ok (cond_Zopp s (Z.shiftl (Zpos m) e))
  end.

(** The built-ins [min(a, b)] and [max(a, b)]: the first argument is kept
    unless the second compares strictly below (above) it. *)
Definition py_min (a b : float) : float := if ltb b a then b else a.
Definition py_max (a b : float) : float := if gtb b a then b else a.

Definition sign_bit (a : float) : bool :=
  match a with
  | S754_zero s | S754_infinity s | S754_finite s _ _ => s
  | S754_nan => false
  end.

(** [|a| * 10^p] rounded half to even to an integer, for a finite [a]. *)
Definition scaled (p : nat) (a : float) : N :=
  match a with
  | S754_finite _ m e =>
      let n := Zpos m * 10 ^ Z.of_nat p in
      match e with
      | Zneg k =>
          let d := Zpos (Pos.pow 2 k) in
          let q := n / d in
          let r := n mod d in
          Z.to_N (match 2 * r ?= d with
                  | Lt => q
                  | Eq => if Z.even q then q else q + 1
                  | Gt => q + 1
                  end)
      | _ => Z.to_N (n * 2 ^ e)
      end
  | _ => 0%N
  end.

Definition fixed_digits (p : nat) (n : N) : string :=
  let d := (10 ^ N.of_nat p)%N in
  let ip := PyStr.of_N (n / d) in
  match p with
  | O => ip
  | _ => ip ++ "." ++ PyStr.rjust p "0" (PyStr.of_N (n mod d))
  end.

(** [format(a, 'W.Pf')] *)
Definition format_f (w p : nat) (a : float) : string :=
  let body :=
    match a with
    | S754_nan => "nan"
    | S754_infinity s => if s then "-inf" else "inf"
    | _ => (if sign_bit a then "-" else "") ++ fixed_digits p (scaled p a)
    end in
  PyStr.rjust w " " body.

(** *** [float(s)] for a string *)

Fixpoint span_digits (l : list ascii) : list ascii * list ascii :=
  match l with
  | c :: t =>
      if PyStr.is_digit c
      then let '(ds, rest) := span_digits t in (c :: ds, rest)
      else ([], l)
  | [] => ([], [])
  end.

Definition digits_value (ds : list ascii) : N :=
  fold_left (fun acc c => (10 * acc + (PyStr.code c - 48))%N) ds 0%N.

(** An underscore is accepted only between two digits; the text without
    its underscores is what the number parser reads. *)
Fixpoint drop_underscores (prev : option ascii) (l : list ascii)
  : option (list ascii) :=
  match l with
  | [] =>
      match prev with
      | Some "_"%char => None
      | _ => Some []
      end
  | c :: t =>
      if Ascii.eqb c "_" then
        match prev with
        | Some p => if PyStr.is_digit p then drop_underscores (Some c) t else None
        | None => None
        end
      else
        match prev with
        | Some "_"%char =>
            if PyStr.is_digit c
            then option_map (cons c) (drop_underscores (Some c) t)
            else None
        | _ => option_map (cons c) (drop_underscores (Some c) t)
        end
  end.

Definition split_sign (l : list ascii) : bool * list ascii :=
  match l with
  | "-"%char :: t => (true, t)
  | "+"%char :: t => (false, t)
  | _ => (false, l)
  end.

Definition parse_exponent (l : list ascii) : option Z :=
  match l with
  | [] => Some 0
  | c :: t =>
      if (Ascii.eqb c "e" || Ascii.eqb c "E")%bool then
        let '(neg, t1) := split_sign t in
        match span_digits t1 with
        | ((_ :: _) as ds, []) => Some (cond_Zopp neg (Z.of_N (digits_value ds)))
        | _ => None
        end
      else None
  end.

Definition parse_decimal (neg : bool) (l : list ascii) : option float :=
  let '(ip, l2) := span_digits l in
  let '(fp, l3) :=
    match l2 with
    | "."%char :: t => span_digits t
    | _ => ([], l2)
    end in
  match (ip ++ fp)%list with
  | [] => None
  | ds =>
      match parse_exponent l3 with
      | Some e => Some (of_decimal neg (digits_value ds) (e - Z.of_nat (List.length fp)))
      | None => None
      end
  end.

Definition parse_inf_or_nan (neg : bool) (l : list ascii) : option float :=
  let w := string_of_list_ascii (PyStr.lower_l l) in
  if (String.eqb w "inf" || String.eqb w "infinity")%bool then Some (inf neg)
  else if String.eqb w "nan" then Some nan
  else None.

(** [float(s)]: [None] stands for [ValueError]. Digits outside ASCII are
    not recognised by this model. *)
Definition of_string (s : string) : option float :=
  match drop_underscores None (list_ascii_of_string (PyStr.strip s)) with
  | None => None
  | Some l =>
      let '(neg, body) := split_sign l in
      match parse_decimal neg body with
      | Some f => Some f
      | None => parse_inf_or_nan neg body
      end
  end.

(** *** [int(s)] for a string *)

Definition int_of_string (s : string) : option Z :=
  match drop_underscores None (list_ascii_of_string (PyStr.strip s)) with
  | None => None
  | Some l =>
      let '(neg, body) := split_sign l in
      match span_digits body with
      | ((_ :: _) as ds, []) => Some (cond_Zopp neg (Z.of_N (digits_value ds)))
      | _ => None
      end
  end.

End PyFloat.

Import PyFloat.

Definition f0 : float := S754_zero false.
Definition f60 : float := Eval vm_compute in round_Z 60.
Definition f85 : float := Eval vm_compute in round_Z 85.
Definition f100 : float := Eval vm_compute in round_Z 100.
Definition f1024 : float := Eval vm_compute in round_Z 1024.
Definition f61 : float := Eval vm_compute in round_Z 61.
Definition f2048 : float := Eval vm_compute in round_Z 2048.
(** 59.9 and 75.5, the floats nearest to 599/10 and 755/10 *)
Definition f59_9 : float := Eval vm_compute in of_decimal false 599 (-1).
Definition f75_5 : float := Eval vm_compute in of_decimal false 755 (-1).
Definition fm5 : float := Eval vm_compute in round_Z (-5).
Definition f105 : float := Eval vm_compute in round_Z 105.


(** ** Python dictionaries, in insertion order *)

Module PyDict.
Section Dict.
Context {K V : Type}.
Variable eqb : K -> K -> bool.

Definition dict : Type := list (K * V).

(** [d.get(k)] *)
Fixpoint get (d : dict) (k : K) : option V :=
  match d with
  | [] => None
  | (k', v) :: t => if eqb k' k then Some v else get t k
  end.

(** [d[k] = v]: an existing key keeps its position, a new key goes last. *)
Fixpoint set (d : dict) (k : K) (v : V) : dict :=
  match d with
  | [] => [(k, v)]
  | (k', v') :: t => if eqb k' k then (k', v) :: t else (k', v') :: set t k v
  end.

(** Iteration over a dict yields its keys. *)
Definition keys (d : dict) : list K := List.map fst d.

Definition values (d : dict) : list V := List.map snd d.

(** [dict(zip(ks, vs))] *)
Definition of_zip (ks : list K) (vs : list V) : dict :=
  fold_left (fun d kv => set d (fst kv) (snd kv)) (List.combine ks vs) [].
End Dict.
End PyDict.

(** ** The [csv] reader, excel dialect with [skipinitialspace=True] *)

Module Csv.

Inductive state : Type :=
| START_RECORD
| START_FIELD
| IN_FIELD
| IN_QUOTED_FIELD
| QUOTE_IN_QUOTED_FIELD
| EAT_CRNL.

(** [fields] holds the saved fields, last one first; [field] holds the
    characters of the field being read, last one first. *)
Record reader : Type := {
  fields : list string;
  field : list ascii;
  field_len : N;
  st : state
}.

Definition init : reader :=
  {| fields := []; field := []; field_len := 0; st := START_RECORD |}.

Definition field_limit : N := 131072.

Definition with_state (r : reader) (s : state) : reader :=
  {| fields := fields r; field := field r; field_len := field_len r; st := s |}.

Definition add_char (r : reader) (c : ascii) (s : state) : result reader :=
  if N.leb field_limit (field_len r) then Raise CsvError
  else Ok {| fields := fields r; field := c :: field r;
             field_len := N.succ (field_len r); st := s |}.

Definition save_field (r : reader) (s : state) : reader :=
  {| fields := string_of_list_ascii (rev (field r)) :: fields r;
     field := []; field_len := 0; st := s |}.

Definition is_newline (c : ascii) : bool :=
  (Ascii.eqb c "010" || Ascii.eqb c "013")%bool.

Definition is_quote (c : ascii) : bool := Ascii.eqb c "034".
Definition is_delimiter (c : ascii) : bool := Ascii.eqb c ",".

Definition start_field (r : reader) (c : option ascii) : result reader :=
  match c with
  | None => Ok (save_field r START_RECORD)
  | Some ch =>
      if is_newline ch then Ok (save_field r EAT_CRNL)
      else if is_quote ch then Ok (with_state r IN_QUOTED_FIELD)
      else if Ascii.eqb ch " " then Ok (with_state r START_FIELD)
      else if is_delimiter ch then Ok (save_field r START_FIELD)
      else add_char r ch IN_FIELD
  end.

(** One step of the reader; [None] is the end of the line. *)
Definition process_char (r : reader) (c : option ascii) : result reader :=
  match st r with
  | START_RECORD =>
      match c with
      | None => Ok r
      | Some ch =>
          if is_newline ch then Ok (with_state r EAT_CRNL)
          else start_field r c
      end
  | START_FIELD => start_field r c
  | IN_FIELD =>
      match c with
      | None => Ok (save_field r START_RECORD)
      | Some ch =>
          if is_newline ch then Ok (save_field r EAT_CRNL)
          else if is_delimiter ch then Ok (save_field r START_FIELD)
          else add_char r ch IN_FIELD
      end
  | IN_QUOTED_FIELD =>
      match c with
      | None => Ok r
      | Some ch =>
          if is_quote ch then Ok (with_state r QUOTE_IN_QUOTED_FIELD)
          else add_char r ch IN_QUOTED_FIELD
      end
  | QUOTE_IN_QUOTED_FIELD =>
      match c with
      | None => Ok (save_field r START_RECORD)
      | Some ch =>
          if is_quote ch then add_char r ch IN_QUOTED_FIELD
          else if is_delimiter ch then Ok (save_field r START_FIELD)
          else if is_newline ch then Ok (save_field r EAT_CRNL)
          else add_char r ch IN_FIELD
      end
  | EAT_CRNL =>
      match c with
      | None => Ok (with_state r START_RECORD)
      | Some ch => if is_newline ch then Ok r else Raise CsvError
      end
  end.

Fixpoint feed (r : reader) (l : list ascii) : result reader :=
  match l with
  | [] => process_char r None
  | c :: t => r' <- process_char r (Some c) ;; feed r' t
  end.

Definition pending (r : reader) : bool :=
  (negb (N.eqb (field_len r) 0)
   || match st r with IN_QUOTED_FIELD => true | _ => false end)%bool.

Definition record_of (r : reader) : list string := rev (fields r).

(** [list(csv.reader(lines, skipinitialspace=True))]: a record ends with
    the line that brings the reader back to [START_RECORD]; input that
    ends inside a record closes it. *)
Fixpoint read_rows (r : reader) (lines : list string)
  : result (list (list string)) :=
  match lines with
  | [] =>
      if pending r then Ok [record_of (save_field r START_RECORD)] else Ok []
  | line :: rest =>
      r' <- feed r (list_ascii_of_string line) ;;
      match st r' with
      | START_RECORD =>
          rows <- read_rows init rest ;;
          Ok (record_of r' :: rows)
      | _ => read_rows r' rest
      end
  end.

Definition reader_rows (lines : list string) : result (list (list string)) :=
  read_rows init lines.

End Csv.

(** ** The script *)

Definition ESC : string := String "027" "".
Definition RESET : string := ESC ++ "[0m".
Definition COLOR_GREEN : string := ESC ++ "[38;5;40m".
Definition COLOR_YELLOW : string := ESC ++ "[38;5;214m".
Definition COLOR_RED : string := ESC ++ "[38;5;203m".
Definition COLOR_DIM : string := ESC ++ "[2m".
Definition COLOR_BOLD : string := ESC ++ "[1m".
Definition CLEAR_SCREEN : string := ESC ++ "[2J".
Definition CURSOR_HOME : string := ESC ++ "[H".
Definition ALT_SCREEN_ENABLE : string := ESC ++ "[?1049h".
Definition ALT_SCREEN_DISABLE : string := ESC ++ "[?1049l".
Definition HIDE_CURSOR : string := ESC ++ "[?25l".
Definition SHOW_CURSOR : string := ESC ++ "[?25h".
Definition BLOCK : string := "█".
Definition DEFAULT_METRICS : string := "18,5,1,3".
Definition AUTO_CMD : string := "auto".
Definition CMD_FALLBACKS : list string := ["xpumcli"; "xpu-smi"].

Record DeviceMetadata : Type := {
  name : option string;
  memory_total_mib : option float
}.

Definition DeviceMetadata_default : DeviceMetadata :=
  {| name := None; memory_total_mib := None |}.

Record DeviceSample : Type := {
  timestamp : string;
  mem_used_mib : option float;
  mem_util_percent : option float;
  power_watts : option float;
  temp_c : option float
}.

Record Namespace : Type := {
  cmd : string;
  metrics : string;
  bar_width : option Z
}.

(** What the script asks of its surroundings. *)
Record World : Type := {
  (** [shutil.which] *)
  which : string -> option string;
  (** [os.path.exists(p) and os.access(p, os.X_OK)] *)
  exists_executable : string -> bool;
  (** the terminal width, when one can be determined *)
  terminal_columns : option Z;
  (** [sys.stdout.isatty()] *)
  isatty : bool
}.

Definition isabs (p : string) : bool :=
  match p with
  | String "/" _ => true
  | _ => false
  end.

(** One candidate in the loop of [resolve_command]: the path it resolves
    to, if it does. *)
Definition resolve_candidate (w : World) (candidate : string) : option string :=
  if isabs candidate then
    if exists_executable w candidate then Some candidate else None
  else
    match which w candidate with
    | Some resolved => if PyStr.nonempty resolved then Some resolved else None
    | None => None
    end.

Fixpoint resolve_loop (w : World) (candidates errors : list string)
  : string + list string :=
  match candidates with
  | [] => inr errors
  | candidate :: rest =>
      match resolve_candidate w candidate with
      | Some path => inl path
      | None => resolve_loop w rest (List.app errors [candidate])
      end
  end.

Definition not_found_message (errors : list string) : string :=
  "Unable to find any of: " ++ PyStr.join ", " errors ++ ". "
  ++ "Set --cmd or XPUM_MONITOR_CMD to xpumcli/xpu-smi full path.".

Definition candidates_of (binary : string) : list string :=
  if String.eqb binary AUTO_CMD then CMD_FALLBACKS else [binary].

Definition resolve_command (w : World) (binary : string) : result string :=
  match resolve_loop w (candidates_of binary) [] with
  | inl path => Ok path
  | inr errors => Raise (FileNotFoundError (not_found_message errors))
  end.

Definition color_for_percent (percent : float) : string :=
  if geb percent f85 then COLOR_RED
  else if geb percent f60 then COLOR_YELLOW
  else COLOR_GREEN.

(** [max(0.0, min(100.0, percent))] *)
Definition clamp_percent (percent : float) : float :=
  py_max f0 (py_min f100 percent).

(** [int((percent / 100.0) * width)] *)
Definition filled_blocks (percent : float) (width : Z) : result Z :=
  q <- truediv percent f100 ;;
  w <- of_int width ;;
  to_int (mul q w).

Definition bar_of (percent : float) (width filled : Z) : string :=
  let remaining := width - filled in
  let bar := color_for_percent percent ++ PyStr.repeat BLOCK filled ++ RESET in
  let bar :=
    if Z.ltb 0 remaining
    then bar ++ COLOR_DIM ++ PyStr.repeat BLOCK remaining ++ RESET
    else bar in
  bar ++ " " ++ format_f 5 1 percent ++ "%".

Definition format_bar (percent : float) (width : Z) : result string :=
  let percent := clamp_percent percent in
  filled <- filled_blocks percent width ;;
  Ok (bar_of percent width filled).

Definition clear_and_write (payload : string) : list string :=
  [CLEAR_SCREEN ++ CURSOR_HOME ++ payload].

Definition enter_alt_screen (w : World) : bool * list string :=
  if isatty w then (true, [ALT_SCREEN_ENABLE ++ HIDE_CURSOR]) else (false, []).

Definition exit_alt_screen (active : bool) : list string :=
  if active then [SHOW_CURSOR ++ ALT_SCREEN_DISABLE] else [].

(** [next(csv.reader([line], skipinitialspace=True), [])] *)
Definition parse_csv_line (line : string) : result (list string) :=
  rows <- Csv.reader_rows [line] ;;
  Ok (match rows with
      | row :: _ => row
      | [] => []
      end).

Definition to_float (value : option string) : option float :=
  match value with
  | None => None
  | Some value =>
      let value := PyStr.strip value in
      if PyStr.nonempty value then of_string value else None
  end.

Definition parse_int (value : option string) : option Z :=
  match value with
  | None => None
  | Some value =>
      let value := PyStr.strip value in
      if PyStr.nonempty value then int_of_string value else None
  end.

Definition parse_mib (value : option string) : option float :=
  match value with
  | None => None
  | Some value => to_float (Some (PyStr.strip (PyStr.remove_all "MiB" value)))
  end.

(** *** Discovery *)

(** A decoded JSON document, as [json.loads] returns it: [JObj] is a dict
    in insertion order. *)
#[warnings="-register-all"]
Inductive json : Type :=
| JNull
| JBool (b : bool)
| JInt (z : Z)
| JFloat (f : float)
| JStr (s : string)
| JList (items : list json)
| JObj (members : list (string * json)).

(** How [subprocess.run(..., check=True, text=True)] can end. *)
Inductive run_outcome : Type :=
| SpawnFailure (e : exn)
| NonZeroExit
| Undecodable
| Completed (out : string).

Definition run_checked (o : run_outcome) : result string :=
  match o with
  | SpawnFailure e => Raise e
  | NonZeroExit => Raise CalledProcessError
  | Undecodable => Raise ValueError
  | Completed out => Ok out
  end.

(** The external tool and the library functions taken as given. *)
Record Tool : Type := {
  (** [cmd discovery --dump 1,2,16] *)
  discovery_dump : string -> run_outcome;
  (** [cmd discovery -j] *)
  discovery_json : string -> run_outcome;
  (** [cmd dump -m metrics]: [Popen] fails, or the child prints these lines
      and ends *)
  dump_stream : string -> string -> result (list string);
  (** [json.loads]; [None] is [JSONDecodeError] *)
  json_loads : string -> option json;
  (** [str(v)] of a decoded value *)
  json_str : json -> string
}.

(** [try: body except handled: pass], where [fallback] is the state the
    handler leaves behind. *)
Definition try_pass {A : Type} (body : result A) (handled : exn -> bool)
  (fallback : A) : result A :=
  match body with
  | Ok a => Ok a
  | Raise e => if handled e then Ok fallback else Raise e
  end.

Definition is_CalledProcessError (e : exn) : bool :=
  match e with CalledProcessError => true | _ => false end.

Definition is_CalledProcessError_or_JSONDecodeError (e : exn) : bool :=
  match e with CalledProcessError | JSONDecodeError => true | _ => false end.

Definition json_truthy (v : json) : bool :=
  match v with
  | JNull => false
  | JBool b => b
  | JInt z => negb (Z.eqb z 0)
  | JFloat f => truthy f
  | JStr s => PyStr.nonempty s
  | JList l => match l with [] => false | _ => true end
  | JObj m => match m with [] => false | _ => true end
  end.

(** [v.get(k)] *)
Definition json_get (v : json) (k : string) : result (option json) :=
  match v with
  | JObj m => Ok (PyDict.get String.eqb m k)
  | _ => Raise AttributeError
  end.

(** [for item in v] *)
Definition json_iter (v : json) : result (list json) :=
  match v with
  | JList l => Ok l
  | JObj m => Ok (List.map (fun kv => JStr (fst kv)) m)
  | JStr s => Ok (List.map (fun c => JStr (String c "")) (list_ascii_of_string s))
  | _ => Raise TypeError
  end.

(** [int(v)] *)
Definition json_int (v : json) : result Z :=
  match v with
  | JInt z => Ok z
  | JBool b => Ok (if b then 1 else 0)
  | JFloat f => to_int f
  | JStr s =>
      match int_of_string s with
      | Some z => Ok z
      | None => Raise ValueError
      end
  | _ => Raise TypeError
  end.

Definition Metadata : Type := @PyDict.dict Z DeviceMetadata.
Definition Stats : Type := @PyDict.dict Z DeviceSample.

(** [metadata.setdefault(device_id, DeviceMetadata())] *)
Definition setdefault (metadata : Metadata) (device_id : Z)
  : Metadata * DeviceMetadata :=
  match PyDict.get Z.eqb metadata device_id with
  | Some info => (metadata, info)
  | None => (PyDict.set Z.eqb metadata device_id DeviceMetadata_default,
             DeviceMetadata_default)
  end.

Definition with_name (info : DeviceMetadata) (n : string) : DeviceMetadata :=
  {| name := Some n; memory_total_mib := memory_total_mib info |}.

Definition with_total (info : DeviceMetadata) (t : float) : DeviceMetadata :=
  {| name := name info; memory_total_mib := Some t |}.

(** The body of the loop over the rows of the CSV discovery dump. *)
Definition dump_row (headers : list string) (metadata : Metadata)
  (row : list string) : Metadata :=
  if negb (Nat.eqb (List.length row) (List.length headers)) then metadata
  else
    let entry := PyDict.of_zip String.eqb headers row in
    match parse_int (PyDict.get String.eqb entry "Device ID") with
    | None => metadata
    | Some device_id =>
        let '(metadata, info) := setdefault metadata device_id in
        let info :=
          match PyDict.get String.eqb entry "Device Name" with
          | Some n =>
              if PyStr.nonempty n
              then with_name info (PyStr.strip_chars (String "034" " ") n)
              else info
          | None => info
          end in
        let info :=
          match parse_mib (PyDict.get String.eqb entry "Memory Physical Size") with
          | Some total_mib => with_total info total_mib
          | None => info
          end in
        PyDict.set Z.eqb metadata device_id info
    end.

Definition dump_attempt (t : Tool) (cmd_path : string) (metadata : Metadata)
  : result Metadata :=
  dump_output <- run_checked (discovery_dump t cmd_path) ;;
  rows <- Csv.reader_rows
            (List.filter PyStr.nonempty (PyStr.splitlines dump_output)) ;;
  match rows with
  | [] => Ok metadata
  | headers :: rest => Ok (fold_left (dump_row headers) rest metadata)
  end.

(** The body of the loop over [device_list]. A name that is not a string is
    kept as its text: the script only ever formats the name into a label. *)
Definition json_item (t : Tool) (metadata : Metadata) (item : json)
  : result Metadata :=
  device_id <- json_get item "device_id" ;;
  match device_id with
  | None | Some JNull => Ok metadata
  | Some device_id =>
      id <- json_int device_id ;;
      let '(metadata, info) := setdefault metadata id in
      device_name <- json_get item "device_name" ;;
      match device_name with
      | Some v =>
          if json_truthy v then
            let n := match v with JStr s => s | _ => json_str t v end in
            Ok (PyDict.set Z.eqb metadata id (with_name info n))
          else Ok metadata
      | None => Ok metadata
      end
  end.

Fixpoint json_items (t : Tool) (metadata : Metadata) (items : list json)
  : result Metadata :=
  match items with
  | [] => Ok metadata
  | item :: rest =>
      metadata <- json_item t metadata item ;;
      json_items t metadata rest
  end.

Definition json_attempt (t : Tool) (cmd_path : string) (metadata : Metadata)
  : result Metadata :=
  json_output <- run_checked (discovery_json t cmd_path) ;;
  data <- match json_loads t json_output with
          | Some data => Ok data
          | None => Raise JSONDecodeError
          end ;;
  device_list <- json_get data "device_list" ;;
  items <- json_iter (match device_list with
                      | Some l => l
                      | None => JList []
                      end) ;;
  json_items t metadata items.

(** Both handled exceptions are raised before the attempt has touched
    [metadata], so the handler leaves the mapping as the attempt found it. *)
Definition fetch_device_metadata (t : Tool) (cmd_path : string)
  : result Metadata :=
  let metadata : Metadata := [] in
  metadata <- try_pass (dump_attempt t cmd_path metadata)
                       is_CalledProcessError metadata ;;
  metadata <- try_pass (json_attempt t cmd_path metadata)
                       is_CalledProcessError_or_JSONDecodeError metadata ;;
  Ok metadata.

(** *** The dashboard *)

Definition launch_xpum (t : Tool) (cmd_path : string) (args : Namespace)
  : result (list string) :=
  dump_stream t cmd_path (metrics args).

(** [shutil.get_terminal_size(fallback).columns] *)
Definition columns (w : World) (fallback : Z) : Z :=
  match terminal_columns w with
  | Some c => c
  | None => fallback
  end.

Definition compute_bar_width (w : World) (args : Namespace) : Z :=
  match bar_width args with
  | Some b =>
      if (negb (Z.eqb b 0) && Z.ltb 0 b)%bool then b
      else Z.max 20 (Z.min 60 (columns w 120 - 50))
  | None => Z.max 20 (Z.min 60 (columns w 120 - 50))
  end.

(** [sorted(ids)]: a stable insertion sort. *)
Fixpoint insert_sorted (x : Z) (l : list Z) : list Z :=
  match l with
  | [] => [x]
  | y :: t => if Z.ltb x y then x :: l else y :: insert_sorted x t
  end.

Definition sorted (l : list Z) : list Z := fold_right insert_sorted [] l.

(** [device_ids = sorted(device_stats)] *)
Definition device_order (device_stats : Stats) : list Z :=
  sorted (PyDict.keys device_stats).

Definition latest_timestamp (device_stats : Stats) : string :=
  PyStr.max_default
    (List.filter PyStr.nonempty (List.map timestamp (PyDict.values device_stats)))
    "N/A".

Definition device_label (meta : DeviceMetadata) (device_id : Z) : string :=
  match name meta with
  | Some n => if PyStr.nonempty n then n else "Device " ++ PyStr.of_Z device_id
  | None => "Device " ++ PyStr.of_Z device_id
  end.

(** [sample.mem_used_mib or 0.0] *)
Definition used_or_zero (sample : DeviceSample) : float :=
  match mem_used_mib sample with
  | Some u => if truthy u then u else f0
  | None => f0
  end.

(** The text of the memory line and the percent for the bar, before the
    final default. *)
Definition memory_reading (sample : DeviceSample) (meta : DeviceMetadata)
  : result (string * option float) :=
  let mem_used_mib := used_or_zero sample in
  let mem_percent := mem_util_percent sample in
  used_gib <- truediv mem_used_mib f1024 ;;
  let mem_line := format_f 6 2 used_gib ++ " GiB" in
  match memory_total_mib meta with
  | Some total =>
      if truthy total then
        total_gib <- truediv total f1024 ;;
        let mem_line := mem_line ++ " / " ++ format_f 6 2 total_gib ++ " GiB" in
        match mem_percent with
        | None =>
            if gtb total f0 then
              ratio <- truediv mem_used_mib total ;;
              Ok (mem_line, Some (mul ratio f100))
            else Ok (mem_line, mem_percent)
        | Some _ => Ok (mem_line, mem_percent)
        end
      else Ok (mem_line, mem_percent)
  | None => Ok (mem_line, mem_percent)
  end.

(** [if mem_percent is None: mem_percent = 0.0] *)
Definition percent_or_zero (mem_percent : option float) : float :=
  match mem_percent with
  | Some p => p
  | None => f0
  end.

Definition NA : string := "  N/A  ".

Definition power_str (sample : DeviceSample) : string :=
  match power_watts sample with
  | Some p => format_f 6 1 p ++ " W"
  | None => NA
  end.

Definition temp_str (sample : DeviceSample) : string :=
  match temp_c sample with
  | Some t => format_f 5 1 t ++ " °C"
  | None => NA
  end.

(** The lines one device adds: the body of the loop over [device_ids]. *)
Definition device_lines (device_stats : Stats) (metadata : Metadata)
  (bar_width : Z) (divider : string) (count idx : nat) (device_id : Z)
  : result (list string) :=
  sample <- match PyDict.get Z.eqb device_stats device_id with
            | Some sample => Ok sample
            | None => Raise KeyError
            end ;;
  let meta := match PyDict.get Z.eqb metadata device_id with
              | Some meta => meta
              | None => DeviceMetadata_default
              end in
  reading <- memory_reading sample meta ;;
  let mem_line := fst reading in
  let mem_percent := percent_or_zero (snd reading) in
  mem_bar <- format_bar mem_percent bar_width ;;
  let lines :=
    [COLOR_BOLD ++ device_label meta device_id ++ RESET
       ++ " (ID " ++ PyStr.of_Z device_id ++ ")";
     "  Mem " ++ mem_line ++ " | " ++ mem_bar;
     "  Power " ++ power_str sample ++ " | Temp " ++ temp_str sample] in
  let lines :=
    if Nat.ltb idx (count - 1) then List.app lines [divider] else lines in
  Ok (List.app lines [""]).

Fixpoint render_devices (device_stats : Stats) (metadata : Metadata)
  (bar_width : Z) (divider : string) (count idx : nat) (ids : list Z)
  : result (list string) :=
  match ids with
  | [] => Ok []
  | device_id :: rest =>
      block <- device_lines device_stats metadata bar_width divider
                            count idx device_id ;;
      more <- render_devices device_stats metadata bar_width divider
                             count (S idx) rest ;;
      Ok (List.app block more)
  end.

Definition title_lines (latest_ts : string) : list string :=
  [COLOR_BOLD ++ "Intel XPU Monitor" ++ RESET ++ " — Last update: " ++ latest_ts;
   "Press CTRL+C to exit. Source: xpumcli dump";
   ""].

(** The divider line, as wide as the terminal within 20..100 columns. *)
Definition divider_of (w : World) : string :=
  let term_width := columns w 100 in
  let divider_width := Z.max 20 (Z.min 100 term_width) in
  COLOR_DIM ++ PyStr.repeat "—" divider_width ++ RESET.

(** ['\n'.join(lines).rstrip() + '\n'] *)
Definition payload_of (lines : list string) : string :=
  PyStr.rstrip (PyStr.join PyStr.NL lines) ++ PyStr.NL.

(** The result lists what the call writes to standard output. *)
Definition render_dashboard (w : World) (device_stats : Stats)
  (metadata : Metadata) (bar_width : Z) : result (list string) :=
  match device_stats with
  | [] => Ok []
  | _ =>
      let latest_ts := latest_timestamp device_stats in
      let divider := divider_of w in
      let device_ids := device_order device_stats in
      body <- render_devices device_stats metadata bar_width divider
                             (List.length device_ids) 0 device_ids ;;
      let payload := payload_of (List.app (title_lines latest_ts) body) in
      Ok (clear_and_write payload)
  end.

(** *** The monitor loop *)

Record LoopState : Type := {
  headers : option (list string);
  device_stats : Stats
}.

Definition sample_of_row (row : @PyDict.dict string string) : DeviceSample :=
  let get := PyDict.get String.eqb row in
  {| timestamp := match get "Timestamp" with Some ts => ts | None => "" end;
     mem_used_mib := to_float (get "GPU Memory Used (MiB)");
     mem_util_percent := to_float (get "GPU Memory Utilization (%)");
     power_watts := to_float (get "GPU Power (W)");
     temp_c := to_float (get "GPU Core Temperature (Celsius Degree)") |}.

(** One turn of the [while] loop on a line read from the child: the new
    state and what was written to standard output. *)
Definition loop_body (w : World) (metadata : Metadata) (bar_width : Z)
  (s : LoopState) (line : string) : result (LoopState * list string) :=
  if negb (PyStr.nonempty line) then Ok (s, [])
  else
    parsed <- parse_csv_line line ;;
    match parsed with
    | [] => Ok (s, [])
    | first :: _ =>
        if String.eqb first "Timestamp" then
          Ok ({| headers := Some parsed; device_stats := device_stats s |}, [])
        else
          match headers s with
          | None => Ok (s, [])
          | Some hs =>
              if negb (Nat.eqb (List.length parsed) (List.length hs))
              then Ok (s, [])
              else
                let row := PyDict.of_zip String.eqb hs parsed in
                match parse_int (PyDict.get String.eqb row "DeviceId") with
                | None => Ok (s, [])
                | Some device_id =>
                    let sample := sample_of_row row in
                    let stats := PyDict.set Z.eqb (device_stats s) device_id sample in
                    written <- render_dashboard w stats metadata bar_width ;;
                    Ok ({| headers := headers s; device_stats := stats |}, written)
                end
          end
    end.

(** The loop over the lines of the child, until its output ends or a turn
    raises. *)
Fixpoint stream_loop (w : World) (metadata : Metadata) (bar_width : Z)
  (s : LoopState) (lines : list string) : list string * result LoopState :=
  match lines with
  | [] => ([], Ok s)
  | line :: rest =>
      match loop_body w metadata bar_width s line with
      | Raise e => ([], Raise e)
      | Ok (s', written) =>
          let '(later, r) := stream_loop w metadata bar_width s' rest in
          (List.app written later, r)
      end
  end.

Definition initial_state : LoopState :=
  {| headers := None; device_stats := [] |}.

(** What was written to standard output, and how the call ended. *)
Definition monitor_loop (w : World) (t : Tool) (args : Namespace)
  : list string * result unit :=
  match resolve_command w (cmd args) with
  | Raise e => ([], Raise e)
  | Ok cmd_path =>
      match fetch_device_metadata t cmd_path with
      | Raise e => ([], Raise e)
      | Ok metadata =>
          match launch_xpum t cmd_path args with
          | Raise e => ([], Raise e)
          | Ok lines =>
              let bar_width := compute_bar_width w args in
              let '(alt_screen_active, entered) := enter_alt_screen w in
              let '(written, r) :=
                stream_loop w metadata bar_width initial_state lines in
              (List.app entered (List.app written (exit_alt_screen alt_screen_active)),
               match r with
               | Ok _ => Ok tt
               | Raise e => Raise e
               end)
          end
      end
  end.

Inductive ending : Type :=
| Exit (code : Z)
| Uncaught (e : exn).

Record Run : Type := {
  finish : ending;
  stdout : list string;
  stderr : list string
}.

Definition main (w : World) (t : Tool) (args : Namespace) : Run :=
  let '(written, r) := monitor_loop w t args in
  match r with
  | Ok _ => {| finish := Exit 0; stdout := written; stderr := [] |}
  | Raise (FileNotFoundError msg) =>
      {| finish := Exit 1; stdout := written; stderr := [msg ++ PyStr.NL] |}
  | Raise e => {| finish := Uncaught e; stdout := written; stderr := [] |}
  end.


(** *** Inputs used in the examples *)

Definition header_line : string :=
  "Timestamp,DeviceId,GPU Memory Used (MiB),GPU Memory Utilization (%),GPU Power (W),GPU Core Temperature (Celsius Degree)"
  ++ PyStr.NL.

Definition header_fields : list string :=
  ["Timestamp"; "DeviceId"; "GPU Memory Used (MiB)";
   "GPU Memory Utilization (%)"; "GPU Power (W)";
   "GPU Core Temperature (Celsius Degree)"].

(** A row for device 0: memory used 2048, no utilization, power 75.5,
    temperature 61. *)
Definition data_line : string :=
  "2024-05-01 12:00:00.000,    0, 2048, , 75.5, 61" ++ PyStr.NL.

Definition data_fields : list string :=
  ["2024-05-01 12:00:00.000"; "0"; "2048"; ""; "75.5"; "61"].

Definition data_sample : DeviceSample :=
  {| timestamp := "2024-05-01 12:00:00.000";
     mem_used_mib := Some f2048;
     mem_util_percent := None;
     power_watts := Some f75_5;
     temp_c := Some f61 |}.

Definition quiet_world : World :=
  {| which := fun _ => None; exists_executable := fun _ => false;
     terminal_columns := None; isatty := false |}.

Definition silent_tool : Tool :=
  {| discovery_dump := fun _ => NonZeroExit;
     discovery_json := fun _ => NonZeroExit;
     dump_stream := fun _ _ => Ok [];
     json_loads := fun _ => None;
     json_str := fun _ => "" |}.

(** [msg] contains the text [c]. *)
Definition names (msg c : string) : Prop :=
  exists pre post, msg = pre ++ c ++ post.



(** A sample with no metric reported. *)
Definition blank_sample : DeviceSample :=
  {| timestamp := ""; mem_used_mib := None; mem_util_percent := None;
     power_watts := None; temp_c := None |}.


(** *** Notions used to state the rounding lemmas *)

(** A shift record that has dropped a one. *)
Definition inexact (mrs : shr_record) : bool := (shr_r mrs || shr_s mrs)%bool.

(** [lost k m]: the shift of [m] by [k] bits drops a one. *)
Definition lost (k m : Z) : Prop := (m / 2 ^ k * 2 ^ k < m)%Z.

(** The number of bits [shr_fexp] drops from [m * 2^e]. *)
Definition shift_of (prec emax m e : Z) : Z :=
  Z.max 0 (SpecFloat.fexp prec emax (Zdigits2 m + e) - e).

(** [le_at L m e y ey]: [m * 2^e <= y * 2^ey], both sides counted in units
    of [2^L]. *)
Definition le_at (L m e y ey : Z) : Prop :=
  (L <= e /\ L <= ey /\ m * 2 ^ (e - L) <= y * 2 ^ (ey - L))%Z.


(** [below x y ey]: [x] is a positive zero or a positive finite float of
    value at most [y * 2^ey]. *)
Definition below (x : spec_float) (y ey : Z) : Prop :=
  match x with
  | S754_zero s => s = false
  | S754_finite s m e => s = false /\ exists L, le_at L (Zpos m) e y ey
  | _ => False
  end.

(** The mantissa and the exponent of a finite float lie within the format. *)
Definition in_format (prec emax : Z) (x : spec_float) : Prop :=
  match x with
  | S754_finite _ m e => (Zpos m < 2 ^ prec /\ SpecFloat.emin prec emax <= e)%Z
  | _ => True
  end.



(** *** Notions used to state further properties *)

(** A full redraw as [clear_and_write] emits it. *)
Definition redraw (chunk : string) : Prop :=
  exists lines, chunk = CLEAR_SCREEN ++ CURSOR_HOME ++ payload_of lines.



(** A world where only [xpu-smi] is on the search path, on a terminal. *)
Definition fallback_world : World :=
  {| which := fun c => if String.eqb c "xpu-smi" then Some "/usr/bin/xpu-smi" else None;
     exists_executable := fun _ => false;
     terminal_columns := Some 100;
     isatty := true |}.


(** A tool whose dump cannot be started. *)
Definition vanished_tool : Tool :=
  {| discovery_dump := fun _ => NonZeroExit;
     discovery_json := fun _ => NonZeroExit;
     dump_stream := fun _ _ => Raise (FileNotFoundError "No such file or directory: 'xpu-smi'");
     json_loads := fun _ => None;
     json_str := fun _ => "" |}.

Definition auto_args : Namespace :=
  {| cmd := AUTO_CMD; metrics := DEFAULT_METRICS; bar_width := None |}.

(** A tool whose CSV discovery reports one device with its memory size and
    whose JSON discovery names that device and lists a second one. *)
Definition discovering_tool : Tool :=
  {| discovery_dump := fun _ =>
       Completed ("Device ID,Device Name,Memory Physical Size" ++ PyStr.NL
                  ++ "0, " ++ String "034" ("Intel Arc" ++ String "034" "")
                  ++ ", 16384.00 MiB" ++ PyStr.NL);
     discovery_json := fun _ => Completed "{}";
     dump_stream := fun _ _ => Ok [];
     json_loads := fun _ =>
       Some (JObj [("device_list",
                    JList [JObj [("device_id", JInt 0);
                                 ("device_name", JStr "Intel(R) Arc(TM) A770")];
                           JObj [("device_id", JStr "1")]])]);
     json_str := fun _ => "" |}.

Definition discovered : Metadata :=
  Eval vm_compute in
    match fetch_device_metadata discovering_tool "/usr/bin/xpu-smi" with
    | Ok m => m
    | Raise _ => []
    end.

(** [grown m m']: every device of [m] is still in [m'] with the total memory
    it had, and a device that is new in [m'] has no total memory. *)
Definition grown (m m' : Metadata) : Prop :=
  (forall id info, PyDict.get Z.eqb m id = Some info ->
     exists info', PyDict.get Z.eqb m' id = Some info'
       /\ memory_total_mib info' = memory_total_mib info)
  /\ (forall id info', PyDict.get Z.eqb m id = None ->
        PyDict.get Z.eqb m' id = Some info' -> memory_total_mib info' = None).

(** *** Lines of plain fields *)

(** A character the CSV reader takes as part of an unquoted field. *)
Definition plain_char (c : ascii) : bool :=
  negb (Csv.is_newline c || Csv.is_quote c || Csv.is_delimiter c).

(** A field with no delimiter, quote or line end, no blank at its start,
    and no longer than the reader's field limit. *)
Definition plain_field (f : string) : bool :=
  (forallb plain_char (list_ascii_of_string f)
   && match f with
      | String c _ => negb (Ascii.eqb c " ")
      | EmptyString => true
      end
   && N.leb (N.of_nat (String.length f)) Csv.field_limit)%bool.

Definition blanks (n : nat) : string :=
  string_of_list_ascii (List.repeat " "%char n).

(** The line in which each field follows the given number of blanks and
    the fields are separated by commas. *)
Definition csv_line (items : list (nat * string)) : string :=
  PyStr.join "," (List.map (fun it => blanks (fst it) ++ snd it) items).

(** The reader in state [s] with the fields [flds] saved and the characters
    [acc] of the current field read, both last one first. *)
Definition reading (flds : list string) (acc : list ascii) (s : Csv.state)
  : Csv.reader :=
  {| Csv.fields := flds; Csv.field := acc;
     Csv.field_len := N.of_nat (List.length acc); Csv.st := s |}.

(** *** Padded values *)

(** An ASCII character that is not white space. *)
Definition solid (c : ascii) : bool :=
  (negb (PyStr.is_space c) && N.ltb (PyStr.code c) 128)%bool.

(** A non-empty text that starts and ends with such a character. *)
Definition solid_ends (s : string) : bool :=
  match list_ascii_of_string s, rev (list_ascii_of_string s) with
  | c :: _, d :: _ => (solid c && solid d)%bool
  | _, _ => false
  end.

(** The character [c] does not occur in [s]. *)
Definition free_of (c : ascii) (s : string) : bool :=
  forallb (fun d => negb (Ascii.eqb d c)) (list_ascii_of_string s).

(** The characters of an integer written in decimal. *)
Definition sign_or_digit : list ascii :=
  ["-"; "0"; "1"; "2"; "3"; "4"; "5"; "6"; "7"; "8"; "9"]%char.

(** Induction over the digits of a decimal number. *)
Ltac each_digit d IH :=
  induction d as [|d IH|d IH|d IH|d IH|d IH|d IH|d IH|d IH|d IH|d IH].

(** * Properties *)

Local Open Scope Z_scope.

(** ** The float constants *)

(** The constants are the floats their names say: 59.9 and 75.5 are read
    from their decimal text, and 75.5 is half of 151. *)
Example float_constants :
  of_string "59.9" = Some f59_9 /\ of_string "75.5" = Some f75_5
  /\ mul f75_5 (round_Z 2) = round_Z 151
  /\ of_string "2048" = Some f2048 /\ of_string "61" = Some f61
  /\ of_string "-5" = Some fm5 /\ of_string "105" = Some f105
  /\ of_string "100.0" = Some f100 /\ of_string "0.0" = Some f0.
Proof. vm_compute. repeat split. Qed.

(** ** Order of floats *)

Lemma SFcompare_swap (a b : float) (c : comparison) :
  SFcompare a b = Some c -> SFcompare b a = Some (CompOpp c).
Proof.
  destruct a as [sa|sa| |sa ma ea], b as [sb|sb| |sb mb eb]; simpl;
    intros H; try discriminate; injection H as <-;
    try (destruct sa; reflexivity); try (destruct sb; reflexivity);
    try (destruct sa, sb; reflexivity).
  change (Pos.compare_cont Eq ma mb) with (Pos.compare ma mb).
  change (Pos.compare_cont Eq mb ma) with (Pos.compare mb ma).
  rewrite (Z.compare_antisym ea eb), (Pos.compare_antisym ma mb).
  destruct sa, sb; try reflexivity;
    destruct (ea ?= eb); simpl; try reflexivity;
    destruct (Pos.compare ma mb); reflexivity.
Qed.

Lemma ltb_not_geb (a b : float) : ltb a b = true -> geb a b = false.
Proof.
  unfold ltb, geb, SFltb, SFleb. intros H.
  destruct (SFcompare a b) as [[ | | ]|] eqn:E; try discriminate.
  rewrite (SFcompare_swap _ _ _ E). reflexivity.
Qed.

(** A float below a positive constant is below every positive constant of
    a greater exponent. *)
Lemma ltb_not_geb_higher (p : float) (ma mb : positive) (ea eb : Z) :
  ea < eb ->
  ltb p (S754_finite false ma ea) = true ->
  geb p (S754_finite false mb eb) = false.
Proof.
  intros Hlt. unfold ltb, geb, SFltb, SFleb.
  destruct p as [s|s| |s m e]; simpl;
    try (destruct s; (discriminate || reflexivity)); try discriminate.
  destruct s; [reflexivity|].
  destruct (Z.compare_spec e ea); destruct (Z.compare_spec eb e);
    try lia; try discriminate; reflexivity.
Qed.


(** C8: the bar is red for a percent of at least 85, yellow for a percent of
    at least 60 and below 85, and green for a percent below 60; the bounds
    belong to the upper colour: exactly 85.0 is red, exactly 60.0 is yellow
    and 59.9 is green. *)
Theorem color_thresholds (p : float) :
  (geb p f85 = true -> color_for_percent p = COLOR_RED)
  /\ (geb p f60 = true -> ltb p f85 = true -> color_for_percent p = COLOR_YELLOW)
  /\ (ltb p f60 = true -> color_for_percent p = COLOR_GREEN)
  /\ color_for_percent f85 = COLOR_RED
  /\ color_for_percent f60 = COLOR_YELLOW
  /\ color_for_percent f59_9 = COLOR_GREEN
  /\ of_string "85.0" = Some f85 /\ of_string "60.0" = Some f60
  /\ of_string "59.9" = Some f59_9.
Proof.
  split; [|split; [|split]].
  - unfold color_for_percent. intros ->. reflexivity.
  - unfold color_for_percent. intros H60 H85.
    rewrite (ltb_not_geb _ _ H85), H60. reflexivity.
  - unfold color_for_percent. intros H. rewrite (ltb_not_geb _ _ H).
    unfold f60 in H. unfold f85.
    rewrite (ltb_not_geb_higher p _ _ (-47) (-46) ltac:(lia) H). reflexivity.
  - vm_compute. repeat split.
Qed.

Lemma color_thresholds_witness :
  color_for_percent f100 = COLOR_RED.
Proof.
  apply (proj1 (color_thresholds f100)). vm_compute. reflexivity.
Defined.

(** ** The CSV reader on a single line *)





Lemma length_list_ascii (s : string) :
  List.length (list_ascii_of_string s) = String.length s.
Proof. induction s as [|a s IH]; simpl; congruence. Qed.


(** ** Command resolution *)

Lemma resolve_loop_none (w : World) (candidates errors : list string) :
  (forall c, In c candidates -> resolve_candidate w c = None) ->
  resolve_loop w candidates errors = inr (List.app errors candidates).
Proof.
  revert errors. induction candidates as [|c rest IH]; intros errors Hall; simpl.
  - now rewrite app_nil_r.
  - rewrite (Hall c (or_introl eq_refl)).
    rewrite IH by (intros c' Hc'; apply Hall; now right).
    now rewrite <- app_assoc.
Qed.

Lemma append_assoc (a b c : string) : (a ++ b) ++ c = a ++ (b ++ c).
Proof. induction a as [|x a IH]; simpl; [reflexivity | now rewrite IH]. Qed.

Lemma append_empty_r (a : string) : a ++ "" = a.
Proof. induction a as [|x a IH]; simpl; [reflexivity | now rewrite IH]. Qed.

Lemma join_names (sep : string) (parts : list string) (c : string) :
  In c parts -> exists pre post, PyStr.join sep parts = pre ++ c ++ post.
Proof.
  induction parts as [|p rest IH]; intros Hin; [destruct Hin|].
  destruct Hin as [->|Hin].
  - destruct rest as [|q rest'].
    + exists "", "". simpl. now rewrite append_empty_r.
    + exists "", (sep ++ PyStr.join sep (q :: rest')). reflexivity.
  - destruct (IH Hin) as (pre & post & E).
    destruct rest as [|q rest']; [destruct Hin|].
    exists (p ++ sep ++ pre), post.
    change (PyStr.join sep (p :: q :: rest'))
      with (p ++ sep ++ PyStr.join sep (q :: rest')).
    rewrite E. now rewrite !append_assoc.
Qed.

(** C6: when no candidate resolves, [resolve_command] raises
    [FileNotFoundError] with a message naming every candidate tried, and the
    program ends with exit code 1, the message on standard error and nothing
    written to standard output.  With the two automatic candidates not on the
    search path the message names both. *)
Theorem resolve_failure (w : World) (t : Tool) (args : Namespace) :
  (forall c, In c (candidates_of (cmd args)) -> resolve_candidate w c = None) ->
  let msg := not_found_message (candidates_of (cmd args)) in
  resolve_command w (cmd args) = Raise (FileNotFoundError msg)
  /\ main w t args
     = {| finish := Exit 1; stdout := []; stderr := [msg ++ PyStr.NL] |}
  /\ (forall c, In c (candidates_of (cmd args)) -> names msg c)
  /\ (cmd args = AUTO_CMD ->
      candidates_of (cmd args) = ["xpumcli"; "xpu-smi"]
      /\ msg = "Unable to find any of: xpumcli, xpu-smi. Set --cmd or XPUM_MONITOR_CMD to xpumcli/xpu-smi full path.").
Proof.
  intros Hnone msg.
  assert (Hres : resolve_command w (cmd args) = Raise (FileNotFoundError msg)).
  { unfold resolve_command. now rewrite (resolve_loop_none w _ [] Hnone). }
  split; [exact Hres|]. split; [|split].
  - unfold main, monitor_loop. rewrite Hres. reflexivity.
  - intros c Hc. destruct (join_names ", " _ c Hc) as (pre & post & E).
    exists ("Unable to find any of: " ++ pre),
      (post ++ ". " ++ "Set --cmd or XPUM_MONITOR_CMD to xpumcli/xpu-smi full path.").
    unfold msg, not_found_message. rewrite E. now rewrite !append_assoc.
  - intros E. unfold msg. rewrite E. split; reflexivity.
Qed.

Lemma resolve_failure_witness :
  let w := quiet_world in
  let t := silent_tool in
  let args := {| cmd := "auto"; metrics := DEFAULT_METRICS; bar_width := None |} in
  finish (main w t args) = Exit 1
  /\ stdout (main w t args) = []
  /\ names (not_found_message ["xpumcli"; "xpu-smi"]) "xpumcli"
  /\ names (not_found_message ["xpumcli"; "xpu-smi"]) "xpu-smi".
Proof.
  intros w t args.
  assert (H : forall c, In c (candidates_of (cmd args)) -> resolve_candidate w c = None).
  { intros c [<-|[<-|[]]]; reflexivity. }
  destruct (resolve_failure w t args H) as (_ & Hmain & Hnames & _).
  rewrite Hmain. repeat split.
  - apply (Hnames "xpumcli"). simpl. auto.
  - apply (Hnames "xpu-smi"). simpl. auto.
Defined.

(** ** The stream parser *)

Lemma set_not_nil {V : Type} (d : @PyDict.dict Z V) (k : Z) (v : V) :
  PyDict.set Z.eqb d k v <> [].
Proof. destruct d as [|[k' v'] d]; simpl; [|destruct (Z.eqb k' k)]; discriminate. Qed.

Lemma parse_csv_line_empty : parse_csv_line "" = Ok [].
Proof. reflexivity. Qed.

(** What a turn of the loop does, by cases on the parsed line. *)
Lemma loop_body_parsed (w : World) (metadata : Metadata) (width : Z)
  (s : LoopState) (line : string) (first : string) (rest : list string) :
  parse_csv_line line = Ok (first :: rest) ->
  loop_body w metadata width s line =
  if String.eqb first "Timestamp" then
    Ok ({| headers := Some (first :: rest); device_stats := device_stats s |}, [])
  else
    match headers s with
    | None => Ok (s, [])
    | Some hs =>
        if negb (Nat.eqb (List.length (first :: rest)) (List.length hs))
        then Ok (s, [])
        else
          let row := PyDict.of_zip String.eqb hs (first :: rest) in
          match parse_int (PyDict.get String.eqb row "DeviceId") with
          | None => Ok (s, [])
          | Some device_id =>
              let stats := PyDict.set Z.eqb (device_stats s) device_id
                                      (sample_of_row row) in
              bind (render_dashboard w stats metadata width)
                   (fun written =>
                      Ok ({| headers := headers s; device_stats := stats |},
                          written))
          end
    end.
Proof.
  intros Hp. unfold loop_body.
  destruct line as [|a line'].
  - rewrite parse_csv_line_empty in Hp. discriminate.
  - cbn [PyStr.nonempty negb]. rewrite Hp. reflexivity.
Qed.



Lemma get_set_same {V : Type} (d : @PyDict.dict Z V) (k : Z) (v : V) :
  PyDict.get Z.eqb (PyDict.set Z.eqb d k v) k = Some v.
Proof.
  induction d as [|[k' v'] d IH]; simpl.
  - now rewrite Z.eqb_refl.
  - destruct (Z.eqb k' k) eqn:E; simpl; rewrite E; [reflexivity | exact IH].
Qed.

Lemma to_float_absent (v : option string) :
  to_float v = None <->
  v = None
  \/ exists t, v = Some t
       /\ (PyStr.strip t = "" \/ of_string (PyStr.strip t) = None).
Proof.
  unfold to_float. split.
  - destruct v as [t|]; [|now left]. intros H. right. exists t. split; [reflexivity|].
    destruct (PyStr.strip t) eqn:E; [now left | right; exact H].
  - intros [->|(t & -> & [E|E])]; [reflexivity| |].
    + now rewrite E.
    + destruct (PyStr.nonempty (PyStr.strip t)); [exact E | reflexivity].
Qed.

(** C3: for a data row with as many columns as the active header, a missing
    or unparseable device id drops the row; otherwise the sample built from
    the row is stored under the device id, and each metric of the sample is
    read from its own column alone, absent exactly when that column is
    missing, blank or not a number.  The header line followed by the row
    for device 0 with memory used 2048, no utilization, power 75.5 and
    temperature 61 gives 2048.0, None, 75.5 and 61.0. *)
Theorem row_to_sample (w : World) (metadata : Metadata) (width : Z)
  (s : LoopState) (line first : string) (rest hs : list string) :
  parse_csv_line line = Ok (first :: rest) ->
  first <> "Timestamp" ->
  headers s = Some hs ->
  List.length (first :: rest) = List.length hs ->
  let row := PyDict.of_zip String.eqb hs (first :: rest) in
  let sample := sample_of_row row in
  (parse_int (PyDict.get String.eqb row "DeviceId") = None ->
   loop_body w metadata width s line = Ok (s, []))
  /\ (forall device_id,
      parse_int (PyDict.get String.eqb row "DeviceId") = Some device_id ->
      let stats := PyDict.set Z.eqb (device_stats s) device_id sample in
      loop_body w metadata width s line
      = bind (render_dashboard w stats metadata width)
             (fun written =>
                Ok ({| headers := headers s; device_stats := stats |}, written))
      /\ PyDict.get Z.eqb stats device_id = Some sample)
  /\ mem_used_mib sample
     = to_float (PyDict.get String.eqb row "GPU Memory Used (MiB)")
  /\ mem_util_percent sample
     = to_float (PyDict.get String.eqb row "GPU Memory Utilization (%)")
  /\ power_watts sample = to_float (PyDict.get String.eqb row "GPU Power (W)")
  /\ temp_c sample
     = to_float (PyDict.get String.eqb row "GPU Core Temperature (Celsius Degree)")
  /\ (forall v, to_float v = None <->
        v = None
        \/ exists t, v = Some t
             /\ (PyStr.strip t = "" \/ of_string (PyStr.strip t) = None))
  /\ (parse_csv_line header_line = Ok header_fields
      /\ parse_csv_line data_line = Ok data_fields
      /\ parse_int (PyDict.get String.eqb
                      (PyDict.of_zip String.eqb header_fields data_fields)
                      "DeviceId") = Some 0
      /\ sample_of_row (PyDict.of_zip String.eqb header_fields data_fields)
         = data_sample).
Proof.
  intros Hp Hne Hh Hlen. cbv zeta.
  pose proof (loop_body_parsed w metadata width s line first rest Hp) as E.
  apply String.eqb_neq in Hne. rewrite Hne in E.
  destruct (headers s) as [hs'|] eqn:Hh'; [|discriminate].
  injection Hh as ->.
  apply Nat.eqb_eq in Hlen. rewrite Hlen in E. cbn [negb] in E. cbv zeta in E.
  split; [|split].
  - intros Hid. rewrite E, Hid. reflexivity.
  - intros device_id Hid. split.
    + rewrite E, Hid. reflexivity.
    + apply get_set_same.
  - split; [reflexivity|]. split; [reflexivity|]. split; [reflexivity|].
    split; [reflexivity|]. split; [exact to_float_absent|].
    vm_compute. repeat split.
Qed.

Lemma row_to_sample_witness :
  exists written,
    let s := {| headers := Some header_fields; device_stats := [] |} in
    loop_body quiet_world [] 20 s data_line
    = Ok ({| headers := Some header_fields; device_stats := [(0, data_sample)] |},
          written).
Proof.
  pose (s := {| headers := Some header_fields; device_stats := [] |}).
  destruct (row_to_sample quiet_world [] 20 s data_line
              "2024-05-01 12:00:00.000" (tl data_fields) header_fields)
    as (_ & Hstore & _).
  - vm_compute. reflexivity.
  - discriminate.
  - reflexivity.
  - reflexivity.
  - destruct (Hstore 0) as (E & _); [vm_compute; reflexivity|].
    eexists. cbv zeta. fold s. rewrite E. vm_compute. reflexivity.
Defined.

(** ** Nothing is drawn for an empty store *)

Lemma loop_body_written (w : World) (metadata : Metadata) (width : Z)
  (s s' : LoopState) (line : string) (written : list string) :
  loop_body w metadata width s line = Ok (s', written) ->
  (written = [] /\ device_stats s' = device_stats s)
  \/ exists device_id sample,
       device_stats s' = PyDict.set Z.eqb (device_stats s) device_id sample.
Proof.
  unfold loop_body.
  destruct (negb (PyStr.nonempty line)).
  { intros [= <- <-]. now left. }
  destruct (parse_csv_line line) as [parsed|e]; cbn [bind]; [|discriminate].
  destruct parsed as [|first rest].
  { intros [= <- <-]. now left. }
  destruct (String.eqb first "Timestamp").
  { intros [= <- <-]. now left. }
  destruct (headers s) as [hs|].
  2:{ intros [= <- <-]. now left. }
  destruct (negb _).
  { intros [= <- <-]. now left. }
  destruct (parse_int _) as [device_id|].
  2:{ intros [= <- <-]. now left. }
  destruct (render_dashboard _ _ _ _) as [out|e]; cbn [bind]; [|discriminate].
  intros [= <- <-]. right. do 2 eexists. reflexivity.
Qed.

Lemma stream_loop_quiet (w : World) (metadata : Metadata) (width : Z)
  (lines : list string) (s s' : LoopState) (written : list string) :
  stream_loop w metadata width s lines = (written, Ok s') ->
  device_stats s' = [] -> written = [] /\ device_stats s = [].
Proof.
  revert s written. induction lines as [|line rest IH]; intros s written; simpl.
  - intros [= <- <-]. auto.
  - destruct (loop_body w metadata width s line) as [[s1 out]|e] eqn:E;
      [|discriminate].
    destruct (stream_loop w metadata width s1 rest) as [later r] eqn:E2.
    intros [= <- ->] Hempty.
    destruct (IH _ _ E2 Hempty) as (-> & Hs1).
    destruct (loop_body_written _ _ _ _ _ _ _ E) as [(-> & Hsame)|(id & smp & Hset)].
    + split; [reflexivity | congruence].
    + rewrite Hs1 in Hset. symmetry in Hset. now apply set_not_nil in Hset.
Qed.

(** C10: with an empty store [render_dashboard] returns at once and writes
    nothing; hence a turn of the loop that leaves the store empty writes
    nothing, and as long as no sample has been stored the loop has written
    nothing. *)
Theorem empty_store_draws_nothing (w : World) (metadata : Metadata) (width : Z) :
  render_dashboard w [] metadata width = Ok []
  /\ (forall s s' line written,
        loop_body w metadata width s line = Ok (s', written) ->
        device_stats s' = [] -> written = [])
  /\ (forall lines s' written,
        stream_loop w metadata width initial_state lines = (written, Ok s') ->
        device_stats s' = [] -> written = []).
Proof.
  split; [reflexivity|]. split.
  - intros s s' line written E Hempty.
    destruct (loop_body_written _ _ _ _ _ _ _ E) as [(-> & _)|(id & smp & Hset)];
      [reflexivity|].
    rewrite Hempty in Hset. symmetry in Hset. now apply set_not_nil in Hset.
  - intros lines s' written E Hempty.
    exact (proj1 (stream_loop_quiet _ _ _ _ _ _ _ E Hempty)).
Qed.

Lemma empty_store_draws_nothing_witness :
  fst (stream_loop quiet_world [] 20 initial_state [data_line; PyStr.NL]) = [].
Proof.
  destruct (stream_loop quiet_world [] 20 initial_state [data_line; PyStr.NL])
    as [written r] eqn:E.
  assert (E' := E). vm_compute in E'. injection E' as Hw Hr.
  rewrite <- Hr in E.
  exact (proj2 (proj2 (empty_store_draws_nothing quiet_world [] 20))
           _ _ _ E eq_refl).
Defined.

(** ** The memory percent *)






(** ** Device order *)






Lemma keys_set_In {V : Type} (d : @PyDict.dict Z V) (k : Z) (v : V) (id : Z) :
  In id (PyDict.keys (PyDict.set Z.eqb d k v)) <-> id = k \/ In id (PyDict.keys d).
Proof.
  unfold PyDict.keys. induction d as [|[k' v'] d IH]; simpl.
  - intuition.
  - destruct (Z.eqb_spec k' k) as [->|Hne]; simpl; [intuition|].
    rewrite IH. intuition.
Qed.





Lemma render_dashboard_order (w : World) (stats : Stats) (metadata : Metadata)
  (width : Z) :
  stats <> [] ->
  render_dashboard w stats metadata width
  = bind (render_devices stats metadata width (divider_of w)
            (List.length (device_order stats)) 0 (device_order stats))
         (fun body =>
            Ok (clear_and_write
                  (payload_of (List.app (title_lines (latest_timestamp stats)) body)))).
Proof. destruct stats; [congruence | reflexivity]. Qed.



(** ** Absent readings *)





(** ** Discovery *)






(** ** Rounding to a binary format

    The values are compared as integers after scaling by a power of two
    [2^K] large enough for every exponent at hand. *)

Lemma digits2_pos_bounds (p : positive) :
  2 ^ (Zpos (digits2_pos p) - 1) <= Zpos p < 2 ^ Zpos (digits2_pos p).
Proof.
  induction p as [p IH|p IH|]; cbn [digits2_pos].
  - rewrite Pos2Z.inj_succ.
    replace (Z.succ (Zpos (digits2_pos p)) - 1) with (Z.succ (Zpos (digits2_pos p) - 1)) by lia.
    rewrite !Z.pow_succ_r by lia. lia.
  - rewrite Pos2Z.inj_succ.
    replace (Z.succ (Zpos (digits2_pos p)) - 1) with (Z.succ (Zpos (digits2_pos p) - 1)) by lia.
    rewrite !Z.pow_succ_r by lia. lia.
  - cbn. lia.
Qed.

Lemma Zdigits2_nonneg (m : Z) : 0 <= Zdigits2 m.
Proof. destruct m; cbn; lia. Qed.

Lemma Zdigits2_bounds (m : Z) :
  0 < m -> 2 ^ (Zdigits2 m - 1) <= m < 2 ^ Zdigits2 m.
Proof. destruct m as [|p|p]; try lia. intros _. apply digits2_pos_bounds. Qed.

Lemma Zdigits2_lt_pow (m : Z) : 0 <= m -> m < 2 ^ Zdigits2 m.
Proof.
  intros H. destruct (Z.eq_dec m 0) as [->|Hne]; [cbn; lia|].
  apply Zdigits2_bounds. lia.
Qed.

(** A positive [m] with [m * 2^a < 2^b] has at most [b - a] digits. *)
Lemma Zdigits2_le (m a b : Z) :
  0 < m -> 0 <= a -> m * 2 ^ a < 2 ^ b -> Zdigits2 m + a <= b.
Proof.
  intros Hm Ha Hlt.
  destruct (Zdigits2_bounds m Hm) as (Hlo & _).
  pose proof (Zdigits2_nonneg m) as Hd.
  assert (Hd1 : 1 <= Zdigits2 m).
  { destruct m; cbn in *; lia. }
  destruct (Z.le_gt_cases (Zdigits2 m + a) b) as [|Hgt]; [assumption|exfalso].
  assert (0 <= b \/ b < 0) as [Hb|Hb] by lia.
  - assert (2 ^ b <= 2 ^ (Zdigits2 m - 1 + a)) by (apply Z.pow_le_mono_r; lia).
    rewrite Z.pow_add_r in H by lia.
    assert (0 < 2 ^ a) by (apply Z.pow_pos_nonneg; lia).
    nia.
  - rewrite (Z.pow_neg_r 2 b) in Hlt by lia.
    assert (0 < 2 ^ a) by (apply Z.pow_pos_nonneg; lia). nia.
Qed.

Lemma loc_of_shr_record_exact (mrs : shr_record) :
  inexact mrs = false -> loc_of_shr_record mrs = loc_Exact.
Proof. destruct mrs as [m [|] [|]]; cbn; (discriminate || reflexivity). Qed.

Lemma round_nearest_even_cases (m : Z) (mrs : shr_record) :
  round_nearest_even m (loc_of_shr_record mrs) = m
  \/ (round_nearest_even m (loc_of_shr_record mrs) = m + 1 /\ inexact mrs = true).
Proof.
  destruct mrs as [m' [|] [|]]; cbn; auto.
  destruct (Z.even m); auto.
Qed.

Lemma shr_record_of_loc_m (m : Z) (l : location) : shr_m (shr_record_of_loc m l) = m.
Proof. destruct l as [|[ | | ]]; reflexivity. Qed.

Lemma shr_record_of_loc_inexact (m : Z) (l : location) :
  inexact (shr_record_of_loc m l) = true -> l <> loc_Exact.
Proof. destruct l as [|[ | | ]]; cbn; (discriminate || congruence). Qed.

Lemma shr_1_m (mrs : shr_record) :
  0 <= shr_m mrs -> shr_m (shr_1 mrs) = shr_m mrs / 2.
Proof.
  destruct mrs as [m r s]. cbn [shr_m]. intros Hm.
  rewrite <- Z.div2_div.
  destruct m as [|[p|p|]|p]; try lia; reflexivity.
Qed.

Lemma shr_1_inexact (mrs : shr_record) :
  0 <= shr_m mrs -> inexact (shr_1 mrs) = true ->
  inexact mrs = true \/ lost 1 (shr_m mrs).
Proof.
  destruct mrs as [m r s]. unfold inexact, lost. cbn [shr_m shr_r shr_s]. intros Hm.
  change (2 ^ 1) with 2. rewrite <- Z.div2_div.
  destruct m as [|[p|p|]|p]; try lia; destruct r, s; cbn; auto;
    try discriminate; intros _; right; lia.
Qed.

Lemma lost_compose (a b m : Z) :
  0 <= a -> 0 <= b -> 0 <= m ->
  lost a m \/ lost b (m / 2 ^ a) -> lost (a + b) m.
Proof.
  unfold lost. intros Ha Hb Hm H.
  rewrite Z.pow_add_r by lia.
  assert (Pa : 0 < 2 ^ a) by (apply Z.pow_pos_nonneg; lia).
  assert (Pb : 0 < 2 ^ b) by (apply Z.pow_pos_nonneg; lia).
  rewrite <- Z.div_div by lia.
  pose proof (Z.mul_div_le m (2 ^ a) Pa).
  assert (0 <= m / 2 ^ a) by (apply Z.div_pos; lia).
  pose proof (Z.mul_div_le (m / 2 ^ a) (2 ^ b) Pb).
  destruct H as [H|H]; nia.
Qed.

Lemma iter_shr_1 (p : positive) (mrs : shr_record) :
  0 <= shr_m mrs ->
  shr_m (iter_pos shr_1 p mrs) = shr_m mrs / 2 ^ Zpos p
  /\ (inexact (iter_pos shr_1 p mrs) = true ->
      inexact mrs = true \/ lost (Zpos p) (shr_m mrs)).
Proof.
  revert mrs. induction p as [p IH|p IH|]; intros mrs Hm; cbn [iter_pos].
  - assert (H1 : 0 <= shr_m (shr_1 mrs)).
    { rewrite shr_1_m by assumption. apply Z.div_pos; lia. }
    destruct (IH (shr_1 mrs) H1) as (Em1 & In1).
    assert (H2 : 0 <= shr_m (iter_pos shr_1 p (shr_1 mrs))).
    { rewrite Em1. apply Z.div_pos; [assumption|]. apply Z.pow_pos_nonneg; lia. }
    destruct (IH _ H2) as (Em2 & In2).
    assert (E : Zpos p~1 = 1 + (Zpos p + Zpos p)) by lia.
    split.
    + rewrite Em2, Em1, shr_1_m by assumption.
      assert (0 < 2 ^ Zpos p) by (apply Z.pow_pos_nonneg; lia).
      rewrite E, !Z.pow_add_r by lia. change (2 ^ 1) with 2.
      rewrite !Z.div_div by nia. reflexivity.
    + intros Hin. rewrite E.
      assert (Hs : inexact mrs = true \/ lost 1 (shr_m mrs) \/
                   lost (Zpos p + Zpos p) (shr_m mrs / 2 ^ 1)).
      { destruct (In2 Hin) as [Hin1|Hl2].
        - destruct (In1 Hin1) as [Hin0|Hl1].
          + destruct (shr_1_inexact mrs Hm Hin0); auto.
          + right. right. apply lost_compose; try lia.
            * apply Z.div_pos; lia.
            * left. rewrite shr_1_m in Hl1 by assumption. exact Hl1.
        - right. right. apply lost_compose; try lia.
          + apply Z.div_pos; lia.
          + right. rewrite Em1, shr_1_m in Hl2 by assumption. exact Hl2. }
      destruct Hs as [Hs|Hs]; [now left|]. right. apply lost_compose; try lia. exact Hs.
  - destruct (IH mrs Hm) as (Em1 & In1).
    assert (H2 : 0 <= shr_m (iter_pos shr_1 p mrs)).
    { rewrite Em1. apply Z.div_pos; [assumption|]. apply Z.pow_pos_nonneg; lia. }
    destruct (IH _ H2) as (Em2 & In2).
    assert (E : Zpos p~0 = Zpos p + Zpos p) by lia.
    split.
    + rewrite Em2, Em1, E, Z.pow_add_r by lia.
      assert (0 < 2 ^ Zpos p) by (apply Z.pow_pos_nonneg; lia).
      rewrite Z.div_div by lia. reflexivity.
    + intros Hin. rewrite E.
      destruct (In2 Hin) as [Hin1|Hl2].
      * destruct (In1 Hin1) as [Hin0|Hl1]; [now left|].
        right. apply lost_compose; try lia. now left.
      * right. apply lost_compose; try lia. right. rewrite Em1 in Hl2. exact Hl2.
  - split.
    + rewrite shr_1_m by assumption. reflexivity.
    + intros Hin. destruct (shr_1_inexact mrs Hm Hin); auto.
Qed.

Section Round.

Variables prec emax : Z.
Hypothesis prec_pos : 0 < prec.

Let fexp := SpecFloat.fexp prec emax.
Let emin := SpecFloat.emin prec emax.

Lemma shift_of_nonneg (m e : Z) : 0 <= shift_of prec emax m e.
Proof. unfold shift_of. lia. Qed.

Lemma shr_fexp_spec (m e : Z) (l : location) :
  0 <= m ->
  exists mrs,
    shr_fexp prec emax m e l = (mrs, e + shift_of prec emax m e)
    /\ shr_m mrs = m / 2 ^ shift_of prec emax m e
    /\ (inexact mrs = true -> l <> loc_Exact \/ lost (shift_of prec emax m e) m).
Proof.
  intros Hm. unfold shr_fexp, shr, shift_of. fold fexp.
  destruct (fexp (Zdigits2 m + e) - e) as [|p|p] eqn:E.
  - exists (shr_record_of_loc m l). rewrite Z.max_id, Z.add_0_r.
    split; [reflexivity|]. rewrite shr_record_of_loc_m, Z.pow_0_r, Z.div_1_r.
    split; [reflexivity|]. intros H. left. now apply shr_record_of_loc_inexact in H.
  - exists (iter_pos shr_1 p (shr_record_of_loc m l)).
    rewrite Z.max_r by lia. split; [reflexivity|].
    assert (H0 : 0 <= shr_m (shr_record_of_loc m l))
      by now rewrite shr_record_of_loc_m.
    destruct (iter_shr_1 p _ H0) as (Em & Hin).
    rewrite shr_record_of_loc_m in Em, Hin. split; [exact Em|].
    intros H. destruct (Hin H) as [H'|H']; [left|now right].
    now apply shr_record_of_loc_inexact in H'.
  - exists (shr_record_of_loc m l). rewrite Z.max_l by lia. rewrite Z.add_0_r.
    split; [reflexivity|]. rewrite shr_record_of_loc_m, Z.pow_0_r, Z.div_1_r.
    split; [reflexivity|]. intros H. left. now apply shr_record_of_loc_inexact in H.
Qed.

(** What [binary_round_aux] returns for [mx * 2^ex], given an upper bound
    [y], counted in units of the exponent [e1] the first shift reaches: a
    value that is again at most [y]. *)
Lemma binary_round_aux_le (sx : bool) (mx ex : Z) (lx : location) (y : Z) :
  0 <= mx ->
  mx <= y * 2 ^ shift_of prec emax mx ex ->
  (lx <> loc_Exact -> mx < y * 2 ^ shift_of prec emax mx ex) ->
  let e1 := ex + shift_of prec emax mx ex in
  match binary_round_aux prec emax sx mx ex lx with
  | S754_zero s => s = sx
  | S754_finite s m e =>
      s = sx /\ e1 <= e /\ Zpos m * 2 ^ (e - e1) <= y
      /\ Zpos m < 2 ^ prec /\ emin <= e /\ e <= emax - prec
  | S754_infinity s =>
      exists m e, 0 < m /\ e1 <= e /\ m * 2 ^ (e - e1) <= y /\ emax - prec < e
  | S754_nan => False
  end.
Proof.
  intros Hmx Hle Hlt e1.
  destruct (shr_fexp_spec mx ex lx Hmx) as (mrs1 & E1 & Hm1 & Hin1).
  unfold binary_round_aux. rewrite E1. fold e1.
  set (k1 := shift_of prec emax mx ex) in *.
  assert (Hk1 : 0 <= k1) by apply shift_of_nonneg.
  assert (P1 : 0 < 2 ^ k1) by (apply Z.pow_pos_nonneg; lia).
  set (m1 := shr_m mrs1) in *.
  assert (Hm1' : 0 <= m1) by (rewrite Hm1; apply Z.div_pos; lia).
  assert (Hfloor : m1 * 2 ^ k1 <= mx).
  { rewrite Hm1, Z.mul_comm. apply Z.mul_div_le. lia. }
  set (m2 := round_nearest_even m1 (loc_of_shr_record mrs1)).
  assert (Hm2 : 0 <= m2 /\ m2 <= y).
  { destruct (round_nearest_even_cases m1 mrs1) as [E|(E & Hin)]; fold m2 in E;
      rewrite E.
    - split; [assumption|]. nia.
    - split; [lia|].
      destruct (Hin1 Hin) as [Hl|Hl].
      + specialize (Hlt Hl). nia.
      + unfold lost in Hl. fold k1 in Hl. rewrite <- Hm1 in Hl. nia. }
  destruct Hm2 as (Hm2 & Hm2y).
  destruct (shr_fexp_spec m2 e1 loc_Exact Hm2) as (mrs2 & E2 & Hm3 & _).
  rewrite E2.
  set (k2 := shift_of prec emax m2 e1) in *.
  assert (Hk2 : 0 <= k2) by apply shift_of_nonneg.
  assert (P2 : 0 < 2 ^ k2) by (apply Z.pow_pos_nonneg; lia).
  assert (Hfloor2 : shr_m mrs2 * 2 ^ k2 <= m2).
  { rewrite Hm3, Z.mul_comm. apply Z.mul_div_le. lia. }
  assert (Hm3' : 0 <= shr_m mrs2) by (rewrite Hm3; apply Z.div_pos; lia).
  assert (Hsmall : shr_m mrs2 < 2 ^ prec).
  { rewrite Hm3. apply Z.div_lt_upper_bound; [lia|].
    rewrite <- Z.pow_add_r by lia.
    apply Z.lt_le_trans with (2 ^ Zdigits2 m2); [now apply Zdigits2_lt_pow|].
    apply Z.pow_le_mono_r; [lia|].
    unfold k2, shift_of, fexp, SpecFloat.fexp. lia. }
  assert (Hemin : emin <= e1 + k2).
  { unfold k2, shift_of, fexp, SpecFloat.fexp, emin. lia. }
  replace (e1 + k2 - e1) with k2 by lia.
  destruct (shr_m mrs2) as [|m|m] eqn:Em3; [reflexivity| |lia].
  destruct (Z.leb_spec (e1 + k2) (emax - prec)) as [Hov|Hov].
  - replace (e1 + k2 - e1) with k2 by lia. repeat split; try lia.
  - exists (Zpos m), (e1 + k2). replace (e1 + k2 - e1) with k2 by lia.
    repeat split; lia.
Qed.

End Round.



Section Binary.

Variables prec emax : Z.
Hypothesis prec_pos : 0 < prec.
Hypothesis emin_neg : SpecFloat.emin prec emax <= 0.
Hypothesis emax_big : prec <= emax - prec.

Let fexp := SpecFloat.fexp prec emax.
Let emin := SpecFloat.emin prec emax.



End Binary.

Lemma iter_xO (m d : positive) : Zpos (Pos.iter xO m d) = Zpos m * 2 ^ Zpos d.
Proof.
  induction d as [|d IH] using Pos.peano_ind.
  - cbn. lia.
  - rewrite Pos.iter_succ, Pos2Z.inj_xO, IH, Pos2Z.inj_succ, Z.pow_succ_r by lia. lia.
Qed.

Lemma shl_align_spec (mx : positive) (ex ex' : Z) :
  let '(mz, ez) := shl_align mx ex ex' in
  ez <= ex /\ Zpos mz = Zpos mx * 2 ^ (ex - ez).
Proof.
  unfold shl_align. destruct (ex' - ex) as [|d|d] eqn:E.
  - rewrite Z.sub_diag. cbn. lia.
  - rewrite Z.sub_diag. cbn. lia.
  - split; [lia|]. rewrite iter_xO. f_equal. f_equal. lia.
Qed.

Section Binary2.

Variables prec emax : Z.
Hypothesis prec_pos : 0 < prec.
Hypothesis emin_neg : SpecFloat.emin prec emax <= 0.
Hypothesis emax_big : prec <= emax - prec.

Let fexp := SpecFloat.fexp prec emax.
Let emin := SpecFloat.emin prec emax.

(** The float nearest to a positive integer below [2^prec] is at most that
    integer. *)
Lemma binary_round_below (w : positive) :
  Zpos w < 2 ^ prec ->
  below (binary_round prec emax false w 0) (Zpos w) 0
  /\ in_format prec emax (binary_round prec emax false w 0).
Proof.
  intros Hw. unfold binary_round.
  pose proof (shl_align_spec w 0 (SpecFloat.fexp prec emax (Zpos (digits2_pos w) + 0)))
    as Hal.
  destruct (shl_align w 0 _) as [mz ez]. destruct Hal as (Hez & Hmz).
  replace (0 - ez) with (- ez) in Hmz by lia.
  set (k1 := shift_of prec emax (Zpos mz) ez).
  assert (Hk1 : 0 <= k1) by apply shift_of_nonneg.
  assert (Pz : 0 < 2 ^ (- ez)) by (apply Z.pow_pos_nonneg; lia).
  assert (He1 : ez + k1 <= 0).
  { unfold k1, shift_of, SpecFloat.fexp. fold emin.
    assert (Zdigits2 (Zpos mz) + 0 <= prec - ez).
    { apply Zdigits2_le; [lia|lia|].
      rewrite Z.pow_0_r, Z.mul_1_r, Hmz.
      replace (prec - ez) with (prec + - ez) by lia.
      rewrite Z.pow_add_r by lia. nia. }
    lia. }
  pose proof (binary_round_aux_le prec emax prec_pos false (Zpos mz) ez loc_Exact
                (Zpos w * 2 ^ (- (ez + k1))) ltac:(lia)) as R.
  fold k1 in R.
  assert (Epow : Zpos w * 2 ^ (- (ez + k1)) * 2 ^ k1 = Zpos mz).
  { rewrite Hmz, <- Z.mul_assoc, <- Z.pow_add_r by lia. f_equal. f_equal. lia. }
  rewrite Epow in R. specialize (R ltac:(lia) ltac:(congruence)). cbv zeta in R.
  destruct (binary_round_aux prec emax false (Zpos mz) ez loc_Exact)
    as [sz|sz| |sz m e]; cbn [below in_format].
  - auto.
  - exfalso. destruct R as (m & e & Hm & He & Hme & Hov).
    assert (P1 : 0 < 2 ^ (e - (ez + k1))) by (apply Z.pow_pos_nonneg; lia).
    assert (P2 : 0 < 2 ^ (- (ez + k1))) by (apply Z.pow_pos_nonneg; lia).
    assert (Hlt : 2 ^ (e - (ez + k1)) < 2 ^ (prec + - (ez + k1))).
    { rewrite Z.pow_add_r by lia. nia. }
    apply Z.pow_lt_mono_r_iff in Hlt; lia.
  - destruct R.
  - destruct R as (-> & He & Hme & Hsmall & Hemin & _).
    split; [|split; assumption]. split; [reflexivity|].
    exists (ez + k1). unfold le_at. split; [lia|]. split; [lia|].
    replace (0 - (ez + k1)) with (- (ez + k1)) by lia. exact Hme.
Qed.


End Binary2.


(** ** The bar *)

Lemma emin_binary64 : SpecFloat.emin prec emax <= 0.
Proof. vm_compute. discriminate. Qed.

Lemma prec_binary64 : 0 < prec.
Proof. reflexivity. Qed.

Lemma emax_binary64 : prec <= emax - prec.
Proof. vm_compute. discriminate. Qed.




(** The float nearest to a width within 0..2^53 is at most the width. *)
Lemma round_Z_below (w : Z) :
  0 <= w <= 2 ^ 53 ->
  below (round_Z w) w 0 /\ in_format prec emax (round_Z w).
Proof.
  intros Hw. unfold round_Z, binary_normalize.
  destruct w as [|pw|pw]; [cbn; auto| |lia].
  destruct (Z.eq_dec (Zpos pw) (2 ^ 53)) as [E|Hne].
  - assert (pw = 9007199254740992%positive) as -> by lia.
    split.
    + split; [reflexivity|]. exists 0. vm_compute. repeat split; discriminate.
    + vm_compute. split; [reflexivity | discriminate].
  - apply (binary_round_below prec emax prec_binary64 emin_binary64 emax_binary64).
    change (2 ^ prec) with (2 ^ 53). lia.
Qed.












(** * Further properties of the script *)

(** ** Command resolution: the first candidate that resolves wins *)

Lemma resolve_loop_inl (w : World) (candidates errors : list string) (path : string) :
  resolve_loop w candidates errors = inl path <->
  exists pre c post,
    candidates = List.app pre (c :: post)
    /\ (forall c', In c' pre -> resolve_candidate w c' = None)
    /\ resolve_candidate w c = Some path.
Proof.
  revert errors. induction candidates as [|c rest IH]; intros errors; simpl.
  - split; [discriminate|]. intros (pre & c & post & E & _).
    destruct pre; discriminate.
  - destruct (resolve_candidate w c) as [p|] eqn:Ec.
    + split.
      * intros [= ->]. exists [], c, rest. repeat split; [intros c' []|exact Ec].
      * intros (pre & c0 & post & E & Hpre & Hc0).
        destruct pre as [|c1 pre]; simpl in E; injection E as <- _.
        -- congruence.
        -- rewrite (Hpre c (or_introl eq_refl)) in Ec. discriminate.
    + rewrite IH. split.
      * intros (pre & c0 & post & -> & Hpre & Hc0).
        exists (c :: pre), c0, post. repeat split; [|exact Hc0].
        intros c' [<-|Hin]; auto.
      * intros (pre & c0 & post & E & Hpre & Hc0).
        destruct pre as [|c1 pre]; simpl in E; injection E as <- ->.
        -- congruence.
        -- exists pre, c0, post. repeat split; [|exact Hc0].
           intros c' Hin. apply Hpre. now right.
Qed.

(** X1: [resolve_command] returns a path exactly when some candidate resolves,
    and then the path of the first such candidate in the order tried; the
    path is never empty: an absolute candidate is returned as it is and is
    an existing executable, any other one is answered by the search path. *)
Theorem resolve_first_match (w : World) (binary path : string) :
  (resolve_command w binary = Ok path <->
   exists pre c post,
     candidates_of binary = List.app pre (c :: post)
     /\ (forall c', In c' pre -> resolve_candidate w c' = None)
     /\ resolve_candidate w c = Some path)
  /\ (forall c, resolve_candidate w c = Some path ->
        path <> ""
        /\ (isabs c = true -> path = c /\ exists_executable w c = true)
        /\ (isabs c = false -> which w c = Some path)).
Proof.
  split.
  - rewrite <- (resolve_loop_inl w (candidates_of binary) [] path).
    unfold resolve_command.
    destruct (resolve_loop w (candidates_of binary) []) as [p|errs].
    + split; intros [= ->]; reflexivity.
    + split; discriminate.
  - intros c. unfold resolve_candidate.
    destruct (isabs c) eqn:Eabs.
    + destruct (exists_executable w c) eqn:Eex; [|discriminate].
      intros [= <-]. split; [|split; [auto | discriminate]].
      intros ->. discriminate.
    + destruct (which w c) as [r|]; [|discriminate].
      destruct r as [|a r]; cbn [PyStr.nonempty]; [discriminate|].
      intros [= <-]. split; [discriminate|]. split; [discriminate | reflexivity].
Qed.

(** ** The bar width *)

(** X2: a positive [--bar-width] is used as given; without one, or with zero or
    a negative one, the width follows the terminal, 50 columns narrower and
    kept within 20..60. *)
Theorem bar_width_bounds (w : World) (args : Namespace) :
  (forall b, bar_width args = Some b -> 0 < b -> compute_bar_width w args = b)
  /\ ((bar_width args = None \/ exists b, bar_width args = Some b /\ b <= 0) ->
      20 <= compute_bar_width w args <= 60
      /\ (forall c, terminal_columns w = Some c -> 70 <= c <= 110 ->
            compute_bar_width w args = c - 50)
      /\ (terminal_columns w = None -> compute_bar_width w args = 60)).
Proof.
  unfold compute_bar_width, columns. split.
  - intros b -> Hb.
    destruct (Z.eqb_spec b 0); [lia|]. destruct (Z.ltb_spec 0 b); [reflexivity | lia].
  - intros [->|(b & -> & Hb)].
    + split; [lia|]. split; [intros c ->; lia | intros ->; reflexivity].
    + destruct (Z.eqb_spec b 0); cbn [negb andb];
        [|destruct (Z.ltb_spec 0 b); [lia|]];
        (split; [lia|]; split; [intros c ->; lia | intros ->; reflexivity]).
Qed.

(** ** Percents outside 0..100 *)

Lemma leb_zero_below_100 (p : float) : leb p f0 = true -> ltb p f100 = true.
Proof.
  unfold leb, ltb, SFleb, SFltb, f0, f100.
  destruct p as [s|s| |s m e]; cbn [SFcompare]; try discriminate.
  - reflexivity.
  - destruct s; [reflexivity | discriminate].
  - destruct s; [reflexivity | discriminate].
Qed.

Lemma leb_not_gtb (a b : float) : leb a b = true -> gtb a b = false.
Proof.
  unfold leb, gtb, SFleb, SFltb. intros H.
  destruct (SFcompare a b) as [c|] eqn:E; [|discriminate].
  rewrite (SFcompare_swap _ _ _ E). destruct c; try discriminate; reflexivity.
Qed.

Lemma geb_not_ltb (a b : float) : geb a b = true -> ltb a b = false.
Proof.
  unfold geb, ltb, SFleb, SFltb. intros H.
  destruct (SFcompare b a) as [c|] eqn:E; [|discriminate].
  rewrite (SFcompare_swap _ _ _ E). destruct c; try discriminate; reflexivity.
Qed.

Lemma clamp_high (p : float) : ltb p f100 = false -> clamp_percent p = f100.
Proof.
  intros H. unfold clamp_percent, py_min. rewrite H. vm_compute. reflexivity.
Qed.

Lemma clamp_low (p : float) : leb p f0 = true -> clamp_percent p = f0.
Proof.
  intros H. unfold clamp_percent, py_min, py_max.
  rewrite (leb_zero_below_100 p H), (leb_not_gtb p f0 H). reflexivity.
Qed.

(** X3: a percent that is not below 100 (100 and more, the positive infinity
    and NaN alike) draws the bar of 100, and a percent of at most 0 (the
    negative zero and the negative infinity included) draws the bar of 0. *)
Theorem format_bar_saturates (p : float) (w : Z) :
  (ltb p f100 = false -> format_bar p w = format_bar f100 w)
  /\ (geb p f100 = true -> format_bar p w = format_bar f100 w)
  /\ (leb p f0 = true -> format_bar p w = format_bar f0 w)
  /\ format_bar nan w = format_bar f100 w
  /\ format_bar (inf false) w = format_bar f100 w
  /\ format_bar (inf true) w = format_bar f0 w
  /\ format_bar (S754_zero true) w = format_bar f0 w.
Proof.
  assert (Hhigh : forall q, ltb q f100 = false -> format_bar q w = format_bar f100 w).
  { intros q H. unfold format_bar. rewrite (clamp_high q H).
    assert (E : clamp_percent f100 = f100) by (vm_compute; reflexivity).
    now rewrite E. }
  assert (Hlow : forall q, leb q f0 = true -> format_bar q w = format_bar f0 w).
  { intros q H. unfold format_bar. rewrite (clamp_low q H).
    assert (E : clamp_percent f0 = f0) by (vm_compute; reflexivity).
    now rewrite E. }
  split; [apply Hhigh|]. split; [intros H; apply Hhigh, geb_not_ltb, H|].
  split; [apply Hlow|].
  split; [apply Hhigh; reflexivity|]. split; [apply Hhigh; reflexivity|].
  split; apply Hlow; reflexivity.
Qed.

Lemma format_bar_saturates_witness :
  format_bar (inf false) 20 = format_bar f100 20.
Proof.
  apply (proj1 (format_bar_saturates (inf false) 20)). reflexivity.
Defined.

(** ** The sample store *)

Lemma get_set_other {V : Type} (d : @PyDict.dict Z V) (k k' : Z) (v : V) :
  k' <> k -> PyDict.get Z.eqb (PyDict.set Z.eqb d k v) k' = PyDict.get Z.eqb d k'.
Proof.
  intros Hne. induction d as [|[k0 v0] d IH]; simpl.
  - destruct (Z.eqb_spec k k'); [congruence | reflexivity].
  - destruct (Z.eqb_spec k0 k) as [->|Hk]; simpl.
    + destruct (Z.eqb_spec k k'); [congruence | reflexivity].
    + destruct (Z.eqb_spec k0 k'); [reflexivity | exact IH].
Qed.

Lemma keys_set {V : Type} (d : @PyDict.dict Z V) (k : Z) (v : V) :
  PyDict.keys (PyDict.set Z.eqb d k v)
  = if existsb (Z.eqb k) (PyDict.keys d) then PyDict.keys d
    else List.app (PyDict.keys d) [k].
Proof.
  unfold PyDict.keys. induction d as [|[k0 v0] d IH]; simpl; [reflexivity|].
  destruct (Z.eqb_spec k0 k) as [->|Hk]; simpl.
  - now rewrite Z.eqb_refl.
  - destruct (Z.eqb_spec k k0) as [->|_]; [congruence|]. simpl. rewrite IH.
    destruct (existsb (Z.eqb k) (List.map fst d)); reflexivity.
Qed.

Lemma render_nonempty (w : World) (stats : Stats) (metadata : Metadata)
  (width : Z) (written : list string) :
  stats <> [] ->
  render_dashboard w stats metadata width = Ok written ->
  exists lines, written = [CLEAR_SCREEN ++ CURSOR_HOME ++ payload_of lines].
Proof.
  intros Hne. rewrite (render_dashboard_order w stats metadata width Hne).
  destruct (render_devices _ _ _ _ _ _ _) as [body|e]; cbn [bind]; [|discriminate].
  intros [= <-]. eexists. reflexivity.
Qed.

Lemma loop_body_redraw (w : World) (metadata : Metadata) (width : Z)
  (s s' : LoopState) (line : string) (written : list string) :
  loop_body w metadata width s line = Ok (s', written) ->
  written = []
  \/ exists lines, written = [CLEAR_SCREEN ++ CURSOR_HOME ++ payload_of lines].
Proof.
  unfold loop_body.
  destruct (negb (PyStr.nonempty line)).
  { intros [= <- <-]. now left. }
  destruct (parse_csv_line line) as [parsed|e]; cbn [bind]; [|discriminate].
  destruct parsed as [|first rest].
  { intros [= <- <-]. now left. }
  destruct (String.eqb first "Timestamp").
  { intros [= <- <-]. now left. }
  destruct (headers s) as [hs|].
  2:{ intros [= <- <-]. now left. }
  destruct (negb _).
  { intros [= <- <-]. now left. }
  destruct (parse_int _) as [device_id|].
  2:{ intros [= <- <-]. now left. }
  destruct (render_dashboard _ _ _ _) as [out|e] eqn:Er; cbn [bind]; [|discriminate].
  intros [= <- <-]. right.
  exact (render_nonempty _ _ _ _ _ (set_not_nil _ _ _) Er).
Qed.

(** X4: a turn of the loop either leaves the store alone and writes nothing, or
    stores one sample and writes exactly one full redraw: that device now
    has the new sample, every other device keeps its own, no device is
    dropped and the devices already known keep their place. *)
Theorem turn_stores_one_sample (w : World) (metadata : Metadata) (width : Z)
  (s s' : LoopState) (line : string) (written : list string) :
  loop_body w metadata width s line = Ok (s', written) ->
  (written = [] /\ device_stats s' = device_stats s)
  \/ exists device_id sample lines,
       written = [CLEAR_SCREEN ++ CURSOR_HOME ++ payload_of lines]
       /\ headers s' = headers s
       /\ PyDict.get Z.eqb (device_stats s') device_id = Some sample
       /\ (forall other, other <> device_id ->
             PyDict.get Z.eqb (device_stats s') other
             = PyDict.get Z.eqb (device_stats s) other)
       /\ PyDict.keys (device_stats s')
          = if existsb (Z.eqb device_id) (PyDict.keys (device_stats s))
            then PyDict.keys (device_stats s)
            else List.app (PyDict.keys (device_stats s)) [device_id].
Proof.
  unfold loop_body.
  destruct (negb (PyStr.nonempty line)).
  { intros [= <- <-]. now left. }
  destruct (parse_csv_line line) as [parsed|e]; cbn [bind]; [|discriminate].
  destruct parsed as [|first rest].
  { intros [= <- <-]. now left. }
  destruct (String.eqb first "Timestamp").
  { intros [= <- <-]. now left. }
  destruct (headers s) as [hs|] eqn:Hh.
  2:{ intros [= <- <-]. now left. }
  destruct (negb _).
  { intros [= <- <-]. now left. }
  destruct (parse_int _) as [device_id|].
  2:{ intros [= <- <-]. now left. }
  destruct (render_dashboard _ _ _ _) as [out|e] eqn:Er; cbn [bind]; [|discriminate].
  intros [= <- <-]. right.
  destruct (render_nonempty _ _ _ _ _ (set_not_nil _ _ _) Er) as (lines & ->).
  eexists device_id, _, lines. cbn [device_stats headers].
  split; [reflexivity|]. split; [rewrite ?Hh; reflexivity|].
  split; [apply get_set_same|]. split; [intros other Hne; now apply get_set_other|].
  apply keys_set.
Qed.

Lemma turn_stores_one_sample_witness :
  exists written,
    loop_body quiet_world [] 20
      {| headers := Some header_fields; device_stats := [(7, blank_sample)] |}
      data_line
    = Ok ({| headers := Some header_fields;
             device_stats := [(7, blank_sample); (0, data_sample)] |}, written)
    /\ List.length written = 1%nat.
Proof.
  destruct (loop_body quiet_world [] 20
              {| headers := Some header_fields; device_stats := [(7, blank_sample)] |}
              data_line) as [[s' written]|e] eqn:E;
    [|vm_compute in E; discriminate].
  destruct (turn_stores_one_sample _ _ _ _ _ _ _ E)
    as [(_ & Hsame)|(id & smp & lines & Hw & _)].
  - exfalso. vm_compute in E. injection E as <- _. discriminate.
  - exists written. split; [|rewrite Hw; reflexivity].
    f_equal. f_equal. vm_compute in E. injection E as <- _. reflexivity.
Defined.

(** ** The loop over the stream *)


Lemma stream_loop_redraws (w : World) (metadata : Metadata) (width : Z)
  (lines : list string) (s : LoopState) (out : list string) (r : result LoopState) :
  stream_loop w metadata width s lines = (out, r) -> Forall redraw out.
Proof.
  revert s out r. induction lines as [|line rest IH]; intros s out r; simpl.
  - intros [= <- _]. constructor.
  - destruct (loop_body w metadata width s line) as [[s1 written]|e] eqn:E.
    + destruct (stream_loop w metadata width s1 rest) as [later r'] eqn:E2.
      intros [= <- _]. apply Forall_app. split; [|exact (IH _ _ _ E2)].
      destruct (loop_body_redraw _ _ _ _ _ _ _ E) as [->|(ls & ->)]; [constructor|].
      constructor; [now exists ls | constructor].
    + intros [= <- _]. constructor.
Qed.

Lemma stream_loop_grows (w : World) (metadata : Metadata) (width : Z)
  (lines : list string) (s s' : LoopState) (out : list string) :
  stream_loop w metadata width s lines = (out, Ok s') ->
  forall id, In id (PyDict.keys (device_stats s)) ->
             In id (PyDict.keys (device_stats s')).
Proof.
  revert s out. induction lines as [|line rest IH]; intros s out; simpl.
  - intros [= _ <-]. auto.
  - destruct (loop_body w metadata width s line) as [[s1 written]|e] eqn:E;
      [|discriminate].
    destruct (stream_loop w metadata width s1 rest) as [later r'] eqn:E2.
    intros [= _ ->] id Hin. apply (IH _ _ E2).
    destruct (loop_body_written _ _ _ _ _ _ _ E) as [(_ & ->)|(k & smp & ->)];
      [assumption|]. apply keys_set_In. now right.
Qed.

(** X6: over a whole stream the loop never drops a device it has stored, and
    everything it writes is a full redraw: clear screen, cursor home, the
    payload. *)
Theorem stream_keeps_devices (w : World) (metadata : Metadata) (width : Z)
  (lines : list string) (s : LoopState) (out : list string) (r : result LoopState) :
  stream_loop w metadata width s lines = (out, r) ->
  Forall redraw out
  /\ (forall s', r = Ok s' ->
        forall id, In id (PyDict.keys (device_stats s)) ->
                   In id (PyDict.keys (device_stats s'))).
Proof.
  intros E. split; [exact (stream_loop_redraws _ _ _ _ _ _ _ E)|].
  intros s' -> id. exact (stream_loop_grows _ _ _ _ _ _ _ E id).
Qed.

Lemma stream_keeps_devices_witness :
  Forall redraw
    (fst (stream_loop quiet_world [] 20 initial_state [header_line; data_line])).
Proof.
  destruct (stream_loop quiet_world [] 20 initial_state [header_line; data_line])
    as [out r] eqn:E.
  exact (proj1 (stream_keeps_devices _ _ _ _ _ _ _ E)).
Defined.

(** ** The run as a whole *)





(** X8: a failure before the loop (no command found, an exception leaving the
    metadata fetch, the child not starting) ends the run with nothing
    written to standard output: the alternate screen is never entered.  A
    [FileNotFoundError] among these, whichever step raised it, is reported
    on standard error with exit code 1. *)
Theorem startup_failure_writes_nothing (w : World) (t : Tool) (args : Namespace)
  (e : exn) :
  (resolve_command w (cmd args) = Raise e
   \/ exists cmd_path,
        resolve_command w (cmd args) = Ok cmd_path
        /\ (fetch_device_metadata t cmd_path = Raise e
            \/ exists metadata,
                 fetch_device_metadata t cmd_path = Ok metadata
                 /\ launch_xpum t cmd_path args = Raise e)) ->
  monitor_loop w t args = ([], Raise e)
  /\ stdout (main w t args) = []
  /\ (forall msg, e = FileNotFoundError msg ->
        finish (main w t args) = Exit 1
        /\ stderr (main w t args) = [msg ++ PyStr.NL])
  /\ ((forall msg, e <> FileNotFoundError msg) ->
        finish (main w t args) = Uncaught e).
Proof.
  intros H.
  assert (Hloop : monitor_loop w t args = ([], Raise e)).
  { unfold monitor_loop.
    destruct H as [->|(p & -> & [->|(m & -> & ->)])]; reflexivity. }
  split; [exact Hloop|]. unfold main. rewrite Hloop.
  split; [destruct e; reflexivity|]. split.
  - intros msg ->. split; reflexivity.
  - intros Hne. destruct e; try reflexivity. now destruct (Hne msg).
Qed.

Lemma startup_failure_writes_nothing_witness :
  stdout (main fallback_world vanished_tool auto_args) = []
  /\ finish (main fallback_world vanished_tool auto_args) = Exit 1.
Proof.
  destruct (startup_failure_writes_nothing fallback_world vanished_tool auto_args
              (FileNotFoundError "No such file or directory: 'xpu-smi'"))
    as (_ & Hout & Hfnf & _).
  - right. exists "/usr/bin/xpu-smi". split; [reflexivity|].
    right. exists []. split; reflexivity.
  - split; [exact Hout|]. exact (proj1 (Hfnf _ eq_refl)).
Defined.

Lemma resolve_first_match_witness :
  resolve_command fallback_world AUTO_CMD = Ok "/usr/bin/xpu-smi".
Proof.
  apply (proj2 (proj1 (resolve_first_match fallback_world AUTO_CMD "/usr/bin/xpu-smi"))).
  exists ["xpumcli"], "xpu-smi", []. split; [reflexivity|]. split.
  - intros c' [<-|[]]. reflexivity.
  - reflexivity.
Defined.

Lemma bar_width_bounds_witness :
  compute_bar_width fallback_world auto_args = 50.
Proof.
  apply (proj1 (proj2 (proj2 (bar_width_bounds fallback_world auto_args)
                         (or_introl eq_refl))) 100); [reflexivity | lia].
Defined.

(** ** The timestamp of the title line *)

Lemma ascii_compare_eq (a b : ascii) : Ascii.compare a b = Eq -> a = b.
Proof. apply Ascii.compare_eq_iff. Qed.

Lemma ascii_compare_lt_trans (a b c : ascii) :
  Ascii.compare a b = Lt -> Ascii.compare b c = Lt -> Ascii.compare a c = Lt.
Proof.
  unfold Ascii.compare. rewrite !N.compare_lt_iff. lia.
Qed.

Lemma string_compare_refl (a : string) : String.compare a a = Eq.
Proof.
  induction a as [|x a IH]; [reflexivity|]. cbn [String.compare].
  unfold Ascii.compare. now rewrite N.compare_refl.
Qed.

Lemma string_leb_refl (a : string) : String.leb a a = true.
Proof. unfold String.leb. now rewrite string_compare_refl. Qed.

Lemma string_compare_not_gt_trans (a b c : string) :
  String.compare a b <> Gt -> String.compare b c <> Gt -> String.compare a c <> Gt.
Proof.
  revert b c. induction a as [|x a IH]; intros [|y b] [|z c]; cbn [String.compare];
    try congruence.
  destruct (Ascii.compare x y) eqn:Exy; [| |congruence];
    destruct (Ascii.compare y z) eqn:Eyz; try congruence.
  - apply ascii_compare_eq in Exy. subst y. rewrite Eyz. apply IH.
  - apply ascii_compare_eq in Exy. subst y. rewrite Eyz. congruence.
  - apply ascii_compare_eq in Eyz. subst z. rewrite Exy. congruence.
  - rewrite (ascii_compare_lt_trans _ _ _ Exy Eyz). congruence.
Qed.

Lemma string_leb_trans (a b c : string) :
  String.leb a b = true -> String.leb b c = true -> String.leb a c = true.
Proof.
  unfold String.leb. intros H1 H2.
  pose proof (string_compare_not_gt_trans a b c) as H.
  destruct (String.compare a b); destruct (String.compare b c);
    destruct (String.compare a c); try reflexivity; try discriminate;
    exfalso; apply H; congruence.
Qed.

Lemma string_ltb_leb (a b : string) : String.ltb a b = true -> String.leb a b = true.
Proof. unfold String.ltb, String.leb. destruct (String.compare a b); auto. Qed.

Lemma string_not_ltb_leb (a b : string) : String.ltb a b = false -> String.leb b a = true.
Proof.
  unfold String.ltb, String.leb. rewrite (String.compare_antisym a b).
  destruct (String.compare b a); cbn; auto.
Qed.

Lemma fold_max_spec (l : list string) (m0 : string) :
  let r := fold_left (fun m x => if String.ltb m x then x else m) l m0 in
  (r = m0 \/ In r l)
  /\ String.leb m0 r = true
  /\ forall x, In x l -> String.leb x r = true.
Proof.
  revert m0. induction l as [|y l IH]; intros m0; cbn [fold_left].
  - split; [now left|]. split; [apply string_leb_refl | intros x []].
  - destruct (String.ltb m0 y) eqn:E.
    + destruct (IH y) as (Hin & Hle & Hall). split; [|split].
      * destruct Hin as [->|Hin]; right; [now left | now right].
      * apply string_leb_trans with y; [now apply string_ltb_leb | exact Hle].
      * intros x [<-|Hx]; [exact Hle | now apply Hall].
    + destruct (IH m0) as (Hin & Hle & Hall). split; [|split].
      * destruct Hin as [->|Hin]; [now left | right; now right].
      * exact Hle.
      * intros x [<-|Hx]; [|now apply Hall].
        apply string_leb_trans with m0; [now apply string_not_ltb_leb | exact Hle].
Qed.

Lemma max_default_spec (l : list string) (d : string) :
  (l = [] /\ PyStr.max_default l d = d)
  \/ (In (PyStr.max_default l d) l
      /\ forall x, In x l -> String.leb x (PyStr.max_default l d) = true).
Proof.
  destruct l as [|p rest]; [now left|]. right. cbn [PyStr.max_default].
  destruct (fold_max_spec rest p) as (Hin & Hle & Hall). split.
  - destruct Hin as [->|Hin]; [now left | now right].
  - intros x [<-|Hx]; [exact Hle | now apply Hall].
Qed.

Lemma nonempty_iff (s : string) : PyStr.nonempty s = true <-> s <> "".
Proof. destruct s; cbn; split; congruence. Qed.

Lemma timestamps_In (stats : Stats) (ts : string) :
  In ts (List.filter PyStr.nonempty (List.map timestamp (PyDict.values stats)))
  <-> exists id sample, In (id, sample) stats /\ timestamp sample = ts /\ ts <> "".
Proof.
  rewrite filter_In, nonempty_iff. unfold PyDict.values. rewrite in_map_iff.
  split.
  - intros ((sample & <- & Hin) & Hne). apply in_map_iff in Hin.
    destruct Hin as ([id smp] & <- & Hin). exists id, smp. auto.
  - intros (id & sample & Hin & <- & Hne). split; [|exact Hne].
    exists sample. split; [reflexivity|]. apply in_map_iff.
    exists (id, sample). auto.
Qed.

(** X9: the timestamp of the title line is the greatest non-empty timestamp of
    the store, in the order of strings, and ["N/A"] when no sample has
    one. *)
Theorem latest_timestamp_greatest (stats : Stats) :
  (forall id sample, In (id, sample) stats -> timestamp sample <> "" ->
     String.leb (timestamp sample) (latest_timestamp stats) = true)
  /\ ((exists id sample, In (id, sample) stats /\ timestamp sample <> ""
         /\ latest_timestamp stats = timestamp sample)
      \/ ((forall id sample, In (id, sample) stats -> timestamp sample = "")
          /\ latest_timestamp stats = "N/A")).
Proof.
  unfold latest_timestamp.
  set (l := List.filter PyStr.nonempty (List.map timestamp (PyDict.values stats))).
  destruct (max_default_spec l "N/A") as [(Hnil & ->)|(Hin & Hall)].
  - assert (Hnone : forall id sample, In (id, sample) stats -> timestamp sample = "").
    { intros id sample H. destruct (string_dec (timestamp sample) "") as [E|Hne]; [exact E|].
      assert (Hl : In (timestamp sample) l) by (apply timestamps_In; eauto).
      rewrite Hnil in Hl. destruct Hl. }
    split; [|right; auto].
    intros id sample H Hne. now rewrite (Hnone id sample H) in Hne.
  - split.
    + intros id sample H Hne. apply Hall. apply timestamps_In. eauto.
    + left. apply timestamps_In in Hin. destruct Hin as (id & sample & H & E & Hne).
      exists id, sample. rewrite E. auto.
Qed.

Lemma latest_timestamp_greatest_witness :
  String.leb "2024-05-01 12:00:00.000"
    (latest_timestamp [(0, data_sample); (1, blank_sample)]) = true.
Proof.
  apply (proj1 (latest_timestamp_greatest [(0, data_sample); (1, blank_sample)])
           0 data_sample).
  - left. reflexivity.
  - discriminate.
Defined.

(** ** The end of the payload *)

Lemma lstrip_rev_spec (n : nat) (l : list ascii) :
  (List.length l <= n)%nat ->
  (exists pre, l = List.app pre (PyStr.lstrip_rev l))
  /\ match PyStr.lstrip_rev l with
     | [] => True
     | a :: _ => PyStr.is_space a = false
     end.
Proof.
  revert l. induction n as [|n IH]; intros l Hlen.
  - destruct l; [|cbn in Hlen; lia]. split; [exists []; reflexivity | exact I].
  - destruct l as [|a t]; [split; [exists []; reflexivity | exact I]|].
    cbn [PyStr.lstrip_rev]. cbn [List.length] in Hlen.
    destruct (PyStr.is_space a) eqn:Ea.
    + destruct (IH t ltac:(lia)) as ((pre & E) & Hhd). split; [|exact Hhd].
      exists (a :: pre). cbn. now rewrite <- E.
    + destruct t as [|b u]; [split; [exists []; reflexivity | exact Ea]|].
      cbn [List.length] in Hlen.
      destruct (PyStr.is_space2 b a).
      * destruct (IH u ltac:(lia)) as ((pre & E) & Hhd). split; [|exact Hhd].
        exists (a :: b :: pre). cbn. now rewrite <- E.
      * destruct u as [|c v]; [split; [exists []; reflexivity | exact Ea]|].
        cbn [List.length] in Hlen.
        destruct (PyStr.is_space3 c b a).
        -- destruct (IH v ltac:(lia)) as ((pre & E) & Hhd). split; [|exact Hhd].
           exists (a :: b :: c :: pre). cbn. now rewrite <- E.
        -- split; [exists []; reflexivity | exact Ea].
Qed.

Lemma list_ascii_app (a b : string) :
  list_ascii_of_string (a ++ b)
  = List.app (list_ascii_of_string a) (list_ascii_of_string b).
Proof. induction a as [|x a IH]; cbn; [reflexivity | now rewrite IH]. Qed.

Lemma string_of_list_app (a b : list ascii) :
  string_of_list_ascii (List.app a b)
  = string_of_list_ascii a ++ string_of_list_ascii b.
Proof. induction a as [|x a IH]; cbn; [reflexivity | now rewrite IH]. Qed.

(** X10: every payload is a text followed by one line end, where the text is the
    joined lines cut at their end and never ends in a white-space
    character: no blank or space is left before the final line end. *)
Theorem payload_ends_clean (lines : list string) :
  exists text tail,
    payload_of lines = text ++ PyStr.NL
    /\ PyStr.join PyStr.NL lines = text ++ tail
    /\ forall u c, text = u ++ String c "" -> PyStr.is_space c = false.
Proof.
  unfold payload_of, PyStr.rstrip.
  set (l := list_ascii_of_string (PyStr.join PyStr.NL lines)).
  destruct (lstrip_rev_spec (List.length (rev l)) (rev l) (le_n _)) as ((pre & E) & Hhd).
  exists (string_of_list_ascii (rev (PyStr.lstrip_rev (rev l)))),
    (string_of_list_ascii (rev pre)).
  split; [reflexivity|]. split.
  - rewrite <- string_of_list_app, <- rev_app_distr, <- E, rev_involutive.
    unfold l. now rewrite string_of_list_ascii_of_string.
  - intros u c Hu.
    apply (f_equal list_ascii_of_string) in Hu.
    rewrite list_ascii_of_string_of_list_ascii, list_ascii_app in Hu. cbn in Hu.
    apply (f_equal (@rev ascii)) in Hu.
    rewrite rev_involutive, rev_app_distr in Hu. cbn in Hu.
    rewrite Hu in Hhd. exact Hhd.
Qed.

(** ** The JSON pass of the discovery *)

Lemma grown_refl (m : Metadata) : grown m m.
Proof. split; [eauto | congruence]. Qed.

Lemma grown_trans (m1 m2 m3 : Metadata) : grown m1 m2 -> grown m2 m3 -> grown m1 m3.
Proof.
  intros (K12 & N12) (K23 & N23). split.
  - intros id info H. destruct (K12 id info H) as (i2 & H2 & E2).
    destruct (K23 id i2 H2) as (i3 & H3 & E3). exists i3. split; congruence.
  - intros id info3 H1 H3.
    destruct (PyDict.get Z.eqb m2 id) as [i2|] eqn:E2.
    + destruct (K23 id i2 E2) as (i3 & H3' & E3).
      rewrite (N12 id i2 H1 E2) in E3. congruence.
    + eapply N23; eauto.
Qed.

Lemma grown_setdefault (m m1 : Metadata) (id : Z) (info : DeviceMetadata) :
  setdefault m id = (m1, info) ->
  grown m m1 /\ PyDict.get Z.eqb m1 id = Some info.
Proof.
  unfold setdefault. destruct (PyDict.get Z.eqb m id) as [i|] eqn:E; intros H;
    injection H as <- <-.
  - split; [apply grown_refl | exact E].
  - split; [|apply get_set_same]. split.
    + intros k i Hk. destruct (Z.eq_dec k id) as [->|Hne]; [congruence|].
      rewrite get_set_other by exact Hne. eauto.
    + intros k i' Hk. destruct (Z.eq_dec k id) as [->|Hne].
      * rewrite get_set_same. intros [= <-]. reflexivity.
      * rewrite get_set_other by exact Hne. congruence.
Qed.

Lemma grown_rename (m : Metadata) (id : Z) (info : DeviceMetadata) (n : string) :
  PyDict.get Z.eqb m id = Some info ->
  grown m (PyDict.set Z.eqb m id (with_name info n)).
Proof.
  intros H. split.
  - intros k i Hk. destruct (Z.eq_dec k id) as [->|Hne].
    + rewrite get_set_same. eexists. split; [reflexivity|].
      cbn [with_name memory_total_mib]. congruence.
    + rewrite get_set_other by exact Hne. eauto.
  - intros k i' Hk. destruct (Z.eq_dec k id) as [->|Hne]; [congruence|].
    rewrite get_set_other by exact Hne. congruence.
Qed.

Lemma json_item_grown (t : Tool) (m m' : Metadata) (item : json) :
  json_item t m item = Ok m' -> grown m m'.
Proof.
  unfold json_item. destruct (json_get item "device_id") as [device_id|e]; [|discriminate].
  cbn [bind].
  destruct device_id as [v|]; [|intros [= <-]; apply grown_refl].
  destruct v; try solve [intros [= <-]; apply grown_refl];
    (destruct (json_int _) as [id|e]; [|discriminate]; cbn [bind];
     destruct (setdefault m id) as [m1 info] eqn:Esd;
     destruct (grown_setdefault _ _ _ _ Esd) as (G1 & Hget);
     destruct (json_get item "device_name") as [device_name|e']; [|discriminate];
     cbn [bind]; destruct device_name as [v0|];
     [destruct (json_truthy v0); intros [= <-]; [|exact G1];
      eapply grown_trans; [exact G1|]; now apply grown_rename
     |intros [= <-]; exact G1]).
Qed.

Lemma json_items_grown (t : Tool) (items : list json) (m m' : Metadata) :
  json_items t m items = Ok m' -> grown m m'.
Proof.
  revert m. induction items as [|item rest IH]; intros m; cbn [json_items].
  - intros [= <-]. apply grown_refl.
  - destruct (json_item t m item) as [m1|e] eqn:E; [|discriminate]. cbn [bind].
    intros H. eapply grown_trans; [eapply json_item_grown; exact E | now apply IH].
Qed.

Lemma json_attempt_grown (t : Tool) (cmd_path : string) (m m' : Metadata) :
  try_pass (json_attempt t cmd_path m)
           is_CalledProcessError_or_JSONDecodeError m = Ok m' ->
  grown m m'.
Proof.
  unfold try_pass. destruct (json_attempt t cmd_path m) as [m1|e] eqn:E.
  - intros [= <-]. revert E. unfold json_attempt.
    destruct (run_checked (discovery_json t cmd_path)) as [out|e]; [|discriminate].
    cbn [bind]. destruct (json_loads t out) as [data|]; [|discriminate].
    cbn [bind]. destruct (json_get data "device_list") as [dl|e]; [|discriminate].
    cbn [bind]. destruct (json_iter _) as [items|e]; [|discriminate].
    cbn [bind]. apply json_items_grown.
  - destruct (is_CalledProcessError_or_JSONDecodeError e); [|discriminate].
    intros [= <-]. apply grown_refl.
Qed.

(** X11: the JSON pass of the discovery only adds: the mapping returned holds
    every device the CSV pass found, with the total memory the CSV pass gave
    it, and a device known from the JSON document alone has no total
    memory. *)
Theorem json_pass_keeps_totals (t : Tool) (cmd_path : string) (metadata : Metadata) :
  fetch_device_metadata t cmd_path = Ok metadata ->
  exists csv_pass,
    try_pass (dump_attempt t cmd_path []) is_CalledProcessError [] = Ok csv_pass
    /\ (forall id info, PyDict.get Z.eqb csv_pass id = Some info ->
          exists info', PyDict.get Z.eqb metadata id = Some info'
            /\ memory_total_mib info' = memory_total_mib info)
    /\ (forall id info', PyDict.get Z.eqb csv_pass id = None ->
          PyDict.get Z.eqb metadata id = Some info' ->
          memory_total_mib info' = None).
Proof.
  unfold fetch_device_metadata.
  destruct (try_pass (dump_attempt t cmd_path []) is_CalledProcessError [])
    as [m0|e]; [|discriminate].
  cbn [bind].
  destruct (try_pass (json_attempt t cmd_path m0) _ m0) as [m1|e] eqn:E; [|discriminate].
  cbn [bind]. intros [= <-]. exists m0. split; [reflexivity|].
  exact (json_attempt_grown _ _ _ _ E).
Qed.

Lemma json_pass_keeps_totals_witness :
  exists csv_pass,
    try_pass (dump_attempt discovering_tool "/usr/bin/xpu-smi" [])
             is_CalledProcessError [] = Ok csv_pass
    /\ (forall id info, PyDict.get Z.eqb csv_pass id = Some info ->
          exists info', PyDict.get Z.eqb discovered id = Some info'
            /\ memory_total_mib info' = memory_total_mib info)
    /\ (forall id info', PyDict.get Z.eqb csv_pass id = None ->
          PyDict.get Z.eqb discovered id = Some info' ->
          memory_total_mib info' = None).
Proof.
  apply (json_pass_keeps_totals discovering_tool "/usr/bin/xpu-smi" discovered).
  vm_compute. reflexivity.
Defined.

(** ** Lines of plain fields *)

Lemma plain_char_inv (c : ascii) :
  plain_char c = true ->
  Csv.is_newline c = false /\ Csv.is_quote c = false /\ Csv.is_delimiter c = false.
Proof.
  unfold plain_char. rewrite negb_true_iff, !orb_false_iff. tauto.
Qed.

Lemma add_char_reading (flds : list string) (acc : list ascii) (s0 s : Csv.state)
  (c : ascii) :
  (N.of_nat (List.length acc) < Csv.field_limit)%N ->
  Csv.add_char (reading flds acc s0) c s = Ok (reading flds (c :: acc) s).
Proof.
  intros Hlen. unfold Csv.add_char, reading.
  cbn [Csv.field_len Csv.fields Csv.field List.length].
  destruct (N.leb_spec Csv.field_limit (N.of_nat (List.length acc))) as [Hge|_]; [lia|].
  now rewrite Nat2N.inj_succ.
Qed.

Lemma feed_in_field (f : list ascii) (flds : list string) (acc rest : list ascii) :
  forallb plain_char f = true ->
  (N.of_nat (List.length acc + List.length f) <= Csv.field_limit)%N ->
  Csv.feed (reading flds acc Csv.IN_FIELD) (List.app f rest)
  = Csv.feed (reading flds (List.app (rev f) acc) Csv.IN_FIELD) rest.
Proof.
  revert acc. induction f as [|c f IH]; intros acc Hplain Hlen; [reflexivity|].
  cbn [forallb] in Hplain. apply andb_prop in Hplain. destruct Hplain as (Hc & Hf).
  destruct (plain_char_inv c Hc) as (Hnl & _ & Hd).
  cbn [List.app Csv.feed List.length] in Hlen |- *.
  unfold Csv.process_char at 1. cbn [reading Csv.st].
  rewrite Hnl, Hd.
  change {| Csv.fields := flds; Csv.field := acc;
            Csv.field_len := N.of_nat (List.length acc); Csv.st := Csv.IN_FIELD |}
    with (reading flds acc Csv.IN_FIELD).
  rewrite add_char_reading by lia. cbn [bind].
  rewrite IH; [|exact Hf|cbn [List.length]; lia].
  cbn [rev]. now rewrite <- app_assoc.
Qed.

Lemma feed_blanks (n : nat) (flds : list string) (s : Csv.state) (rest : list ascii) :
  s = Csv.START_RECORD \/ s = Csv.START_FIELD ->
  Csv.feed (reading flds [] s) (List.app (List.repeat " "%char n) rest)
  = Csv.feed (reading flds [] (match n with O => s | S _ => Csv.START_FIELD end)) rest.
Proof.
  revert s. induction n as [|n IH]; intros s Hs; [reflexivity|].
  cbn [List.repeat List.app Csv.feed].
  assert (E : Csv.process_char (reading flds [] s) (Some " "%char)
              = Ok (reading flds [] Csv.START_FIELD))
    by (destruct Hs as [->| ->]; reflexivity).
  rewrite E. cbn [bind]. rewrite IH by now right. now destruct n.
Qed.

Lemma feed_first_char (c : ascii) (flds : list string) (s : Csv.state) :
  s = Csv.START_RECORD \/ s = Csv.START_FIELD ->
  plain_char c = true -> Ascii.eqb c " " = false ->
  Csv.process_char (reading flds [] s) (Some c) = Ok (reading flds [c] Csv.IN_FIELD).
Proof.
  intros Hs Hc Hsp. destruct (plain_char_inv c Hc) as (Hnl & Hq & Hd).
  assert (E : Csv.start_field (reading flds [] s) (Some c)
              = Ok (reading flds [c] Csv.IN_FIELD)).
  { unfold Csv.start_field. rewrite Hnl, Hq, Hsp, Hd.
    apply add_char_reading. vm_compute. reflexivity. }
  destruct Hs as [->| ->]; unfold Csv.process_char; cbn [reading Csv.st];
    [rewrite Hnl|]; exact E.
Qed.

Lemma string_of_rev_rev (c : ascii) (f : list ascii) :
  string_of_list_ascii (rev (List.app (rev f) [c])) = String c (string_of_list_ascii f).
Proof. rewrite rev_app_distr, rev_involutive. reflexivity. Qed.

(** What the reader has done once it has read the blanks and the field,
    whatever comes next: it is at the start of the field when the field is
    empty and inside it otherwise. *)
Lemma feed_field (n : nat) (f : string) (flds : list string) (s : Csv.state)
  (rest : list ascii) :
  s = Csv.START_RECORD \/ s = Csv.START_FIELD ->
  plain_field f = true ->
  exists r, Csv.feed (reading flds [] s)
              (List.app (list_ascii_of_string (blanks n ++ f)) rest)
            = Csv.feed r rest
    /\ Csv.fields r = flds
    /\ string_of_list_ascii (rev (Csv.field r)) = f
    /\ (Csv.st r = Csv.IN_FIELD
        \/ (f = "" /\ Csv.st r = match n with O => s | S _ => Csv.START_FIELD end)).
Proof.
  intros Hs Hf. unfold plain_field in Hf.
  apply andb_prop in Hf. destruct Hf as (Hf & Hlen).
  apply andb_prop in Hf. destruct Hf as (Hplain & Hfirst).
  apply N.leb_le in Hlen.
  rewrite list_ascii_app. unfold blanks.
  rewrite list_ascii_of_string_of_list_ascii, <- app_assoc, feed_blanks by exact Hs.
  set (s' := match n with O => s | S _ => Csv.START_FIELD end).
  assert (Hs' : s' = Csv.START_RECORD \/ s' = Csv.START_FIELD)
    by (unfold s'; destruct n; auto).
  destruct f as [|c f].
  - exists (reading flds [] s').
    split; [reflexivity|]. split; [reflexivity|]. split; [reflexivity|].
    right. split; reflexivity.
  - cbn [list_ascii_of_string List.app Csv.feed forallb] in Hplain |- *.
    apply andb_prop in Hplain. destruct Hplain as (Hc & Hrest).
    apply negb_true_iff in Hfirst.
    rewrite (feed_first_char c flds s' Hs' Hc Hfirst). cbn [bind].
    cbn [String.length] in Hlen.
    rewrite feed_in_field;
      [|exact Hrest|cbn [List.length]; rewrite length_list_ascii; lia].
    eexists. split; [reflexivity|]. cbn [reading Csv.fields Csv.field Csv.st].
    split; [reflexivity|]. split; [|now left].
    now rewrite string_of_rev_rev, string_of_list_ascii_of_string.
Qed.

Lemma feed_items (items : list (nat * string)) (flds : list string) (s : Csv.state) :
  s = Csv.START_RECORD \/ s = Csv.START_FIELD ->
  Forall (fun it => plain_field (snd it) = true) items ->
  items <> [] ->
  s = Csv.START_FIELD \/ csv_line items <> "" ->
  Csv.feed (reading flds [] s) (list_ascii_of_string (csv_line items))
  = Ok (reading (List.app (rev (List.map snd items)) flds) [] Csv.START_RECORD).
Proof.
  revert flds s. induction items as [|[n f] items IH]; intros flds s Hs Hall Hne Hline;
    [congruence|].
  inversion Hall as [|? ? Hf Hrest]; subst.
  cbn [snd] in Hf. unfold csv_line in *. cbn [List.map PyStr.join fst snd] in *.
  destruct items as [|it items].
  - cbn [List.map rev List.app] in *.
    destruct (feed_field n f flds s [] Hs Hf) as (r & E & Hflds & Hfield & Hst).
    rewrite app_nil_r in E. rewrite E. cbn [Csv.feed].
    destruct r as [rf ra rl rs]. cbn [Csv.fields Csv.field Csv.st] in *. subst rf.
    destruct Hst as [->|(-> & ->)].
    + unfold Csv.process_char, Csv.save_field, reading. cbn. now rewrite Hfield.
    + assert (Hra : ra = []).
      { destruct ra as [|a ra]; [reflexivity|]. exfalso.
        apply (f_equal String.length) in Hfield. cbn in Hfield.
        rewrite <- length_list_ascii, list_ascii_of_string_of_list_ascii in Hfield.
        rewrite length_app in Hfield. cbn in Hfield. lia. }
      subst ra.
      assert (Hstart : match n with O => s | S _ => Csv.START_FIELD end = Csv.START_FIELD).
      { destruct n; [|reflexivity].
        destruct Hline as [->|Hline]; [reflexivity|]. now cbn in Hline. }
      rewrite Hstart. reflexivity.
  - set (tail := PyStr.join "," (List.map (fun it0 => blanks (fst it0) ++ snd it0)
                                  (it :: items))) in *.
    assert (Esplit : list_ascii_of_string ((blanks n ++ f) ++ "," ++ tail)
                     = List.app (list_ascii_of_string (blanks n ++ f))
                         (","%char :: list_ascii_of_string tail)).
    { now rewrite list_ascii_app. }
    change (match List.map (fun it0 => blanks (fst it0) ++ snd it0) (it :: items) with
            | [] => blanks n ++ f
            | _ :: _ => (blanks n ++ f) ++ "," ++ tail
            end) with ((blanks n ++ f) ++ "," ++ tail).
    rewrite Esplit.
    destruct (feed_field n f flds s (","%char :: list_ascii_of_string tail) Hs Hf)
      as (r & E & Hflds & Hfield & Hst).
    rewrite E. cbn [Csv.feed].
    assert (Estep : Csv.process_char r (Some ","%char)
                    = Ok (reading (f :: flds) [] Csv.START_FIELD)).
    { destruct r as [rf ra rl rs]. cbn [Csv.fields Csv.field Csv.st] in *. subst rf.
      destruct Hst as [->|(-> & ->)].
      - unfold Csv.process_char, Csv.save_field, reading. cbn. now rewrite Hfield.
      - unfold Csv.process_char, Csv.start_field, Csv.save_field, reading.
        destruct Hs as [->| ->]; destruct n; cbn; now rewrite Hfield. }
    rewrite Estep. cbn [bind].
    rewrite (IH (f :: flds) Csv.START_FIELD); [|now right|exact Hrest|discriminate|now left].
    change (rev (f :: List.map snd (it :: items)))
      with (List.app (rev (List.map snd (it :: items))) [f]).
    now rewrite <- (app_assoc _ [f] flds).
Qed.

(** X12: reading back a line of plain fields: when the fields hold no comma,
    quote or line end and do not start with a blank, the line that joins
    them with commas, each after any number of blanks, parses to exactly
    these fields; the blanks are dropped. *)
Theorem csv_line_round_trip (items : list (nat * string)) :
  Forall (fun it => plain_field (snd it) = true) items ->
  csv_line items <> "" ->
  parse_csv_line (csv_line items) = Ok (List.map snd items).
Proof.
  intros Hall Hline.
  assert (Hne : items <> []) by (intros ->; now apply Hline).
  unfold parse_csv_line, Csv.reader_rows. cbn [Csv.read_rows].
  change Csv.init with (reading [] [] Csv.START_RECORD).
  rewrite (feed_items items [] Csv.START_RECORD); auto.
  cbn [bind reading Csv.st]. change (Csv.pending (reading [] [] Csv.START_RECORD)) with false.
  cbn [bind]. unfold Csv.record_of. cbn [reading Csv.fields].
  now rewrite app_nil_r, rev_involutive.
Qed.

Lemma csv_line_round_trip_witness :
  parse_csv_line "Timestamp, DeviceId,  GPU Utilization (%),"
  = Ok ["Timestamp"; "DeviceId"; "GPU Utilization (%)"; ""].
Proof.
  apply (csv_line_round_trip
           [(0%nat, "Timestamp"); (1%nat, "DeviceId");
            (2%nat, "GPU Utilization (%)"); (0%nat, "")]).
  - repeat constructor.
  - discriminate.
Defined.

(** ** Values between blanks *)

Lemma lstrip_l_blanks (n : nat) (l : list ascii) :
  PyStr.lstrip_l (List.app (List.repeat " "%char n) l) = PyStr.lstrip_l l.
Proof. induction n as [|n IH]; [reflexivity | exact IH]. Qed.

Lemma lstrip_rev_blanks (n : nat) (l : list ascii) :
  PyStr.lstrip_rev (List.app (List.repeat " "%char n) l) = PyStr.lstrip_rev l.
Proof. induction n as [|n IH]; [reflexivity | exact IH]. Qed.

Lemma solid_inv (c : ascii) :
  solid c = true -> PyStr.is_space c = false /\ (PyStr.code c < 128)%N.
Proof.
  unfold solid. intros H. apply andb_prop in H. destruct H as (H1 & H2).
  apply negb_true_iff in H1. apply N.ltb_lt in H2. auto.
Qed.

Lemma lstrip_l_solid (c : ascii) (t : list ascii) :
  solid c = true -> PyStr.lstrip_l (c :: t) = c :: t.
Proof.
  intros H. destruct (solid_inv c H) as (Hsp & Hc).
  cbn [PyStr.lstrip_l]. rewrite Hsp.
  assert (E2 : forall b, PyStr.is_space2 c b = false).
  { intros b. unfold PyStr.is_space2.
    destruct (N.eqb_spec (PyStr.code c) 194); [lia | reflexivity]. }
  assert (E3 : forall b d, PyStr.is_space3 c b d = false).
  { intros b d. unfold PyStr.is_space3.
    destruct (N.eqb_spec (PyStr.code c) 225); [lia|].
    destruct (N.eqb_spec (PyStr.code c) 226); [lia|].
    destruct (N.eqb_spec (PyStr.code c) 227); [lia|]. reflexivity. }
  destruct t as [|b u]; [reflexivity|]. rewrite E2.
  destruct u as [|d v]; [reflexivity|]. now rewrite E3.
Qed.

Lemma lstrip_rev_solid (a : ascii) (t : list ascii) :
  solid a = true -> PyStr.lstrip_rev (a :: t) = a :: t.
Proof.
  intros H. destruct (solid_inv a H) as (Hsp & Ha).
  cbn [PyStr.lstrip_rev]. rewrite Hsp.
  assert (E2 : forall b, PyStr.is_space2 b a = false).
  { intros b. unfold PyStr.is_space2.
    destruct (N.eqb_spec (PyStr.code a) 133); [lia|].
    destruct (N.eqb_spec (PyStr.code a) 160); [lia|].
    now rewrite andb_false_r. }
  assert (E3 : forall c b, PyStr.is_space3 c b a = false).
  { intros c b. unfold PyStr.is_space3, PyStr.between.
    destruct (N.eqb_spec (PyStr.code a) 128); [lia|].
    destruct (N.eqb_spec (PyStr.code a) 168); [lia|].
    destruct (N.eqb_spec (PyStr.code a) 169); [lia|].
    destruct (N.eqb_spec (PyStr.code a) 175); [lia|].
    destruct (N.eqb_spec (PyStr.code a) 159); [lia|].
    destruct (N.leb_spec 128 (PyStr.code a)); [lia|].
    cbn [andb orb]. now rewrite !andb_false_r. }
  destruct t as [|b u]; [reflexivity|]. rewrite E2.
  destruct u as [|c v]; [reflexivity|]. now rewrite E3.
Qed.

Lemma rev_blanks (n : nat) : rev (List.repeat " "%char n) = List.repeat " "%char n.
Proof.
  induction n as [|n IH]; [reflexivity|].
  cbn [List.repeat rev]. rewrite IH. symmetry. apply repeat_cons.
Qed.

Lemma list_blanks (n : nat) : list_ascii_of_string (blanks n) = List.repeat " "%char n.
Proof. unfold blanks. apply list_ascii_of_string_of_list_ascii. Qed.

(** [strip] takes the blanks off both ends and nothing else. *)
Lemma strip_padded (s : string) (a b : nat) :
  solid_ends s = true -> PyStr.strip (blanks a ++ s ++ blanks b) = s.
Proof.
  unfold solid_ends. intros H.
  destruct (list_ascii_of_string s) as [|c t] eqn:El; [discriminate|].
  destruct (rev (c :: t)) as [|d u] eqn:Er; [discriminate|].
  apply andb_prop in H. destruct H as (Hc & Hd).
  unfold PyStr.strip, PyStr.lstrip, PyStr.rstrip.
  rewrite !list_ascii_app, !list_blanks, El, lstrip_l_blanks.
  cbn [List.app]. rewrite (lstrip_l_solid c _ Hc).
  rewrite list_ascii_of_string_of_list_ascii.
  change (c :: List.app t (List.repeat " "%char b))
    with (List.app (c :: t) (List.repeat " "%char b)).
  rewrite rev_app_distr, rev_blanks, lstrip_rev_blanks, Er.
  rewrite (lstrip_rev_solid d u Hd), <- Er, rev_involutive, <- El.
  apply string_of_list_ascii_of_string.
Qed.

Lemma strip_solid (s : string) : solid_ends s = true -> PyStr.strip s = s.
Proof.
  intros H. pose proof (strip_padded s 0 0 H) as E.
  unfold blanks in E. cbn [List.repeat string_of_list_ascii String.append] in E.
  now rewrite append_empty_r in E.
Qed.

Lemma solid_ends_nonempty (s : string) : solid_ends s = true -> PyStr.nonempty s = true.
Proof. unfold solid_ends. destruct s; [discriminate | reflexivity]. Qed.

Lemma to_float_padded (s : string) (a b : nat) :
  solid_ends s = true ->
  to_float (Some (blanks a ++ s ++ blanks b)) = to_float (Some s).
Proof.
  intros H. unfold to_float. now rewrite strip_padded, strip_solid.
Qed.

(** ** The unit of a memory size *)

Lemma strip_prefix_free (s : string) :
  free_of "M" s = true -> PyStr.strip_prefix "MiB" s = None.
Proof.
  destruct s as [|c s]; [reflexivity|]. unfold free_of. cbn [list_ascii_of_string forallb].
  intros H. apply andb_prop in H. destruct H as (H & _). apply negb_true_iff in H.
  cbn [PyStr.strip_prefix]. rewrite Ascii.eqb_sym, H. reflexivity.
Qed.

Lemma remove_all_free (fuel : nat) (s : string) :
  free_of "M" s = true -> PyStr.remove_all_fuel fuel "MiB" s = s.
Proof.
  revert s. induction fuel as [|fuel IH]; intros s H; [reflexivity|].
  cbn [PyStr.remove_all_fuel]. rewrite (strip_prefix_free s H).
  destruct s as [|c s]; [reflexivity|]. f_equal. apply IH.
  unfold free_of in *. cbn [list_ascii_of_string forallb] in H.
  apply andb_prop in H. tauto.
Qed.

Lemma remove_all_unit (fuel : nat) (pre post : string) :
  free_of "M" pre = true -> free_of "M" post = true ->
  (String.length pre < fuel)%nat ->
  PyStr.remove_all_fuel fuel "MiB" (pre ++ "MiB" ++ post) = pre ++ post.
Proof.
  revert fuel. induction pre as [|c pre IH]; intros fuel Hpre Hpost Hfuel.
  - destruct fuel as [|fuel]; [cbn in Hfuel; lia|].
    cbn [String.append PyStr.remove_all_fuel PyStr.strip_prefix].
    rewrite !Ascii.eqb_refl. now apply remove_all_free.
  - destruct fuel as [|fuel]; [cbn in Hfuel; lia|].
    unfold free_of in Hpre. cbn [list_ascii_of_string forallb] in Hpre.
    apply andb_prop in Hpre. destruct Hpre as (Hc & Hpre).
    apply negb_true_iff in Hc.
    change ((String c pre) ++ "MiB" ++ post) with (String c (pre ++ "MiB" ++ post)).
    cbn [PyStr.remove_all_fuel PyStr.strip_prefix].
    rewrite Ascii.eqb_sym, Hc. cbn [String.append]. f_equal.
    apply IH; [exact Hpre | exact Hpost | cbn [String.length] in Hfuel; lia].
Qed.

Lemma free_of_app (c : ascii) (a b : string) :
  free_of c (a ++ b) = (free_of c a && free_of c b)%bool.
Proof. unfold free_of. now rewrite list_ascii_app, forallb_app. Qed.

Lemma free_of_blanks (n : nat) : free_of "M" (blanks n) = true.
Proof.
  unfold free_of. rewrite list_blanks. induction n as [|n IH]; [reflexivity | exact IH].
Qed.

Lemma blanks_add (a b : nat) : blanks a ++ blanks b = blanks (a + b).
Proof.
  unfold blanks. now rewrite repeat_app, string_of_list_app.
Qed.

Lemma length_append (a b : string) :
  String.length (a ++ b) = (String.length a + String.length b)%nat.
Proof. induction a as [|c a IH]; cbn; [reflexivity | now rewrite IH]. Qed.

(** X13: the unit is dropped and the number is read as if it stood alone: a
    text without the letter M that starts and ends with ASCII characters
    other than white space gives the same value bare, between blanks, or
    followed by [MiB] with blanks anywhere around. *)
Theorem parse_mib_drops_unit (s : string) (a k b : nat) :
  free_of "M" s = true ->
  solid_ends s = true ->
  parse_mib (Some (blanks a ++ s ++ blanks k ++ "MiB" ++ blanks b))
  = to_float (Some s)
  /\ parse_mib (Some (blanks a ++ s ++ blanks b)) = to_float (Some s)
  /\ to_float (Some (blanks a ++ s ++ blanks b)) = to_float (Some s).
Proof.
  intros Hfree Hsolid.
  assert (Hpre : free_of "M" (blanks a ++ s ++ blanks k) = true).
  { now rewrite !free_of_app, !free_of_blanks, Hfree. }
  split; [|split].
  - unfold parse_mib, PyStr.remove_all.
    replace (blanks a ++ s ++ blanks k ++ "MiB" ++ blanks b)
      with ((blanks a ++ s ++ blanks k) ++ "MiB" ++ blanks b)
      by now rewrite !append_assoc.
    rewrite remove_all_unit;
      [|exact Hpre|apply free_of_blanks|rewrite !length_append; lia].
    replace ((blanks a ++ s ++ blanks k) ++ blanks b)
      with (blanks a ++ s ++ blanks (k + b))
      by now rewrite <- blanks_add, !append_assoc.
    now rewrite strip_padded.
  - unfold parse_mib, PyStr.remove_all.
    rewrite remove_all_free by now rewrite !free_of_app, !free_of_blanks, Hfree.
    now rewrite strip_padded.
  - now apply to_float_padded.
Qed.

Lemma parse_mib_drops_unit_witness :
  parse_mib (Some " 16384.00 MiB") = to_float (Some "16384.00").
Proof.
  apply (proj1 (parse_mib_drops_unit "16384.00" 1 1 0 eq_refl eq_refl)).
Defined.

(** ** Device ids in decimal *)

Lemma span_digits_uint (d : Decimal.uint) :
  span_digits (list_ascii_of_string (NilEmpty.string_of_uint d))
  = (list_ascii_of_string (NilEmpty.string_of_uint d), []).
Proof.
  each_digit d IH; [reflexivity|..];
    cbn [NilEmpty.string_of_uint list_ascii_of_string span_digits];
    rewrite IH; reflexivity.
Qed.

Lemma digits_value_acc (d : Decimal.uint) (acc : positive) :
  fold_left (fun a c => (10 * a + (PyStr.code c - 48))%N)
    (list_ascii_of_string (NilEmpty.string_of_uint d)) (N.pos acc)
  = N.pos (Pos.of_uint_acc d acc).
Proof.
  revert acc.
  each_digit d IH; intros acc; [reflexivity|..];
    cbn [NilEmpty.string_of_uint list_ascii_of_string fold_left Pos.of_uint_acc];
    rewrite <- IH; f_equal;
    match goal with
    | |- context [PyStr.code ?c] =>
        let v := eval vm_compute in (PyStr.code c) in
        change (PyStr.code c) with v
    end; lia.
Qed.

Lemma digits_value_uint (d : Decimal.uint) :
  digits_value (list_ascii_of_string (NilEmpty.string_of_uint d)) = Pos.of_uint d.
Proof.
  unfold digits_value.
  each_digit d IH; [reflexivity|exact IH|..];
    cbn [NilEmpty.string_of_uint list_ascii_of_string fold_left Pos.of_uint];
    rewrite <- digits_value_acc; reflexivity.
Qed.

Lemma drop_underscores_uint (d : Decimal.uint) (p : ascii) :
  In p sign_or_digit ->
  drop_underscores (Some p) (list_ascii_of_string (NilEmpty.string_of_uint d))
  = Some (list_ascii_of_string (NilEmpty.string_of_uint d)).
Proof.
  revert p.
  each_digit d IH; intros p Hp;
    unfold sign_or_digit in Hp; cbn [In] in Hp;
    repeat (destruct Hp as [<-|Hp]; [|]); try contradiction;
    try reflexivity;
    cbn [NilEmpty.string_of_uint list_ascii_of_string];
    cbn [drop_underscores Ascii.eqb Bool.eqb];
    (rewrite IH; [reflexivity | unfold sign_or_digit; cbn [In]; tauto]).
Qed.

Lemma solid_uint (d : Decimal.uint) :
  forallb solid (list_ascii_of_string (NilEmpty.string_of_uint d)) = true.
Proof.
  each_digit d IH; [reflexivity|..];
    cbn [NilEmpty.string_of_uint list_ascii_of_string forallb];
    rewrite IH; reflexivity.
Qed.

Lemma solid_all_ends (s : string) :
  s <> "" -> forallb solid (list_ascii_of_string s) = true -> solid_ends s = true.
Proof.
  intros Hne Hall. unfold solid_ends. rewrite forallb_forall in Hall.
  destruct (list_ascii_of_string s) as [|c t] eqn:El.
  - exfalso. apply Hne. rewrite <- (string_of_list_ascii_of_string s), El. reflexivity.
  - destruct (rev (c :: t)) as [|d u] eqn:Er.
    + apply (f_equal (@List.length ascii)) in Er. rewrite length_rev in Er. discriminate.
    + rewrite (Hall c (or_introl eq_refl)). rewrite (Hall d); [reflexivity|].
      apply in_rev. rewrite Er. now left.
Qed.


Lemma of_Z_shape (z : Z) :
  exists (d : Decimal.uint) (neg : bool), d <> Decimal.Nil
    /\ PyStr.of_Z z = (if neg then "-" else "") ++ NilEmpty.string_of_uint d
    /\ cond_Zopp neg (Z.of_N (Pos.of_uint d)) = z
    /\ (neg = true -> z < 0).
Proof.
  unfold PyStr.of_Z. destruct z as [|p|p].
  - exists (Decimal.D0 Decimal.Nil), false. repeat split; discriminate.
  - exists (Pos.to_uint p), false. pose proof (DecimalPos.Unsigned.to_uint_nonnil p) as Hp.
    split; [exact Hp|]. split.
    + cbn [Z.to_int NilZero.string_of_int]. unfold NilZero.string_of_uint.
      destruct (Pos.to_uint p); [congruence|..]; reflexivity.
    + rewrite DecimalPos.Unsigned.of_to. split; [reflexivity | discriminate].
  - exists (Pos.to_uint p), true. pose proof (DecimalPos.Unsigned.to_uint_nonnil p) as Hp.
    split; [exact Hp|]. split.
    + cbn [Z.to_int NilZero.string_of_int]. unfold NilZero.string_of_uint.
      destruct (Pos.to_uint p); [congruence|..]; reflexivity.
    + rewrite DecimalPos.Unsigned.of_to. split; [reflexivity | intros _; reflexivity].
Qed.


(** ** The layout of the dashboard *)

Lemma device_lines_block (stats : Stats) (metadata : Metadata) (width : Z)
  (divider : string) (count idx : nat) (device_id : Z) (block : list string) :
  device_lines stats metadata width divider count idx device_id = Ok block ->
  exists mem power,
    block = List.app
              [COLOR_BOLD
               ++ device_label (match PyDict.get Z.eqb metadata device_id with
                                | Some meta => meta
                                | None => DeviceMetadata_default
                                end) device_id
               ++ RESET ++ " (ID " ++ PyStr.of_Z device_id ++ ")"; mem; power]
              (List.app (if Nat.ltb idx (count - 1) then [divider] else []) [""]).
Proof.
  unfold device_lines.
  destruct (PyDict.get Z.eqb stats device_id) as [sample|]; cbn [bind]; [|discriminate].
  destruct (memory_reading sample _) as [reading|e]; cbn [bind]; [|discriminate].
  destruct (format_bar _ width) as [mem_bar|e]; cbn [bind]; [|discriminate].
  intros [= <-]. do 2 eexists.
  destruct (Nat.ltb idx (count - 1)); reflexivity.
Qed.

Lemma render_devices_blocks (stats : Stats) (metadata : Metadata) (width : Z)
  (divider : string) (count : nat) (ids : list Z) (idx : nat) (body : list string) :
  render_devices stats metadata width divider count idx ids = Ok body ->
  exists blocks,
    body = List.concat blocks
    /\ List.length blocks = List.length ids
    /\ forall i block, nth_error blocks i = Some block ->
         exists device_id mem power,
           nth_error ids i = Some device_id
           /\ block
              = List.app
                  [COLOR_BOLD
                   ++ device_label (match PyDict.get Z.eqb metadata device_id with
                                    | Some meta => meta
                                    | None => DeviceMetadata_default
                                    end) device_id
                   ++ RESET ++ " (ID " ++ PyStr.of_Z device_id ++ ")"; mem; power]
                  (List.app (if Nat.ltb (idx + i) (count - 1) then [divider] else [])
                            [""]).
Proof.
  revert idx body. induction ids as [|device_id rest IH]; intros idx body;
    cbn [render_devices].
  - intros [= <-]. exists []. split; [reflexivity|]. split; [reflexivity|].
    intros [|i] block; discriminate.
  - destruct (device_lines _ _ _ _ _ _ _) as [block0|e] eqn:E0; cbn [bind]; [|discriminate].
    destruct (render_devices _ _ _ _ _ _ rest) as [more|e] eqn:E1; cbn [bind]; [|discriminate].
    intros [= <-].
    destruct (IH _ _ E1) as (blocks & -> & Hlen & Hnth).
    destruct (device_lines_block _ _ _ _ _ _ _ _ E0) as (mem & power & ->).
    eexists (_ :: blocks). split; [reflexivity|]. split; [cbn; now rewrite Hlen|].
    intros [|i] block; cbn [nth_error].
    + intros [= <-]. exists device_id, mem, power. split; [reflexivity|].
      now rewrite Nat.add_0_r.
    + intros Hb. destruct (Hnth i block Hb) as (id & m & p & Hid & ->).
      exists id, m, p. split; [exact Hid|].
      now replace (idx + S i)%nat with (S idx + i)%nat by lia.
Qed.

(** X15: the dashboard is the title followed by one block per device, in the
    order of the device ids: the label, built from the discovered name or,
    without one, from the id, the memory line, the power line, then the
    divider for every device but the last, then an empty line. *)
Theorem dashboard_blocks (w : World) (stats : Stats) (metadata : Metadata)
  (width : Z) (written : list string) :
  stats <> [] ->
  render_dashboard w stats metadata width = Ok written ->
  exists blocks,
    written = [CLEAR_SCREEN ++ CURSOR_HOME
               ++ payload_of (List.app (title_lines (latest_timestamp stats))
                                       (List.concat blocks))]
    /\ List.length blocks = List.length (device_order stats)
    /\ forall i block, nth_error blocks i = Some block ->
         exists device_id mem power,
           nth_error (device_order stats) i = Some device_id
           /\ block
              = List.app
                  [COLOR_BOLD
                   ++ device_label (match PyDict.get Z.eqb metadata device_id with
                                    | Some meta => meta
                                    | None => DeviceMetadata_default
                                    end) device_id
                   ++ RESET ++ " (ID " ++ PyStr.of_Z device_id ++ ")"; mem; power]
                  (List.app (if Nat.ltb (S i) (List.length (device_order stats))
                             then [divider_of w] else [])
                            [""]).
Proof.
  intros Hne. rewrite (render_dashboard_order w stats metadata width Hne).
  destruct (render_devices _ _ _ _ _ _ _) as [body|e] eqn:E; cbn [bind]; [|discriminate].
  intros [= <-].
  destruct (render_devices_blocks _ _ _ _ _ _ _ _ E) as (blocks & -> & Hlen & Hnth).
  exists blocks. split; [reflexivity|]. split; [exact Hlen|].
  intros i block Hb. destruct (Hnth i block Hb) as (id & m & p & Hid & ->).
  exists id, m, p. split; [exact Hid|]. cbn [Nat.add].
  assert (Hi : (i < List.length (device_order stats))%nat).
  { rewrite <- Hlen. apply nth_error_Some. congruence. }
  replace (Nat.ltb i (List.length (device_order stats) - 1))
    with (Nat.ltb (S i) (List.length (device_order stats))); [reflexivity|].
  destruct (Nat.ltb_spec (S i) (List.length (device_order stats)));
    destruct (Nat.ltb_spec i (List.length (device_order stats) - 1));
    try reflexivity; lia.
Qed.

Lemma dashboard_blocks_witness :
  exists blocks,
    render_dashboard quiet_world [(1, blank_sample); (0, data_sample)] [] 20
    = Ok [CLEAR_SCREEN ++ CURSOR_HOME
          ++ payload_of
               (List.app
                  (title_lines
                     (latest_timestamp [(1, blank_sample); (0, data_sample)]))
                  (List.concat blocks))]
    /\ List.length blocks = 2%nat.
Proof.
  destruct (render_dashboard quiet_world [(1, blank_sample); (0, data_sample)] [] 20)
    as [written|e] eqn:E; [|vm_compute in E; discriminate].
  assert (Hne : [(1, blank_sample); (0, data_sample)] <> ([] : Stats)) by discriminate.
  destruct (dashboard_blocks _ _ _ _ _ Hne E) as (blocks & -> & Hlen & _).
  exists blocks. split; [reflexivity | exact Hlen].
Defined.

(** ** The full and the empty bar *)

Lemma Zdigits2_eq (m d : Z) :
  0 < m -> 2 ^ (d - 1) <= m < 2 ^ d -> Zdigits2 m = d.
Proof.
  intros Hm (Hlo & Hhi).
  destruct (Zdigits2_bounds m Hm) as (Dlo & Dhi).
  assert (HD : 1 <= Zdigits2 m) by (destruct m; cbn in *; lia).
  assert (Hd : 1 <= d).
  { destruct (Z.le_gt_cases 1 d) as [|Hlt]; [assumption|exfalso].
    destruct (Z.eq_dec d 0) as [->|Hne]; [cbn in Hhi; lia|].
    rewrite (Z.pow_neg_r 2 d) in Hhi by lia. lia. }
  assert (H1 : 2 ^ (Zdigits2 m - 1) < 2 ^ d) by lia.
  assert (H2 : 2 ^ (d - 1) < 2 ^ Zdigits2 m) by lia.
  apply Z.pow_lt_mono_r_iff in H1; [|lia|lia].
  apply Z.pow_lt_mono_r_iff in H2; [|lia|lia].
  lia.
Qed.

Lemma shl_align_exact (mx : positive) (ex ex' : Z) :
  ex' <= ex ->
  exists mz, shl_align mx ex ex' = (mz, ex') /\ Zpos mz = Zpos mx * 2 ^ (ex - ex').
Proof.
  intros H. unfold shl_align. destruct (ex' - ex) as [|d|d] eqn:E; [|lia|].
  - assert (ex' = ex) as -> by lia. exists mx. split; [reflexivity|].
    rewrite Z.sub_diag. cbn. lia.
  - eexists. split; [reflexivity|]. rewrite iter_xO. f_equal. f_equal. lia.
Qed.

Lemma shift_of_binary64 (m e : Z) :
  shift_of prec emax m e = Z.max 0 (Z.max (Zdigits2 m + e - 53) (-1074) - e).
Proof. reflexivity. Qed.

(** A value that fits the format is rounded to itself. *)
Lemma binary_round_aux_exact (s : bool) (m1 : positive) (k e : Z) :
  0 <= k ->
  shift_of prec emax (Zpos m1 * 2 ^ k) e = k ->
  shift_of prec emax (Zpos m1) (e + k) = 0 ->
  e + k <= emax - prec ->
  binary_round_aux prec emax s (Zpos m1 * 2 ^ k) e loc_Exact = S754_finite s m1 (e + k).
Proof.
  intros Hk H1 H2 Hmax.
  assert (Pk : 0 < 2 ^ k) by (apply Z.pow_pos_nonneg; lia).
  destruct (shr_fexp_spec prec emax (Zpos m1 * 2 ^ k) e loc_Exact)
    as (mrs1 & E1 & Hm1 & Hin1); [lia|].
  rewrite H1 in E1, Hm1, Hin1. rewrite Z.div_mul in Hm1 by lia.
  assert (Hex : inexact mrs1 = false).
  { destruct (inexact mrs1); [|reflexivity]. exfalso.
    destruct (Hin1 eq_refl) as [Hl|Hl]; [congruence|].
    unfold lost in Hl. rewrite Z.div_mul in Hl by lia. lia. }
  unfold binary_round_aux. rewrite E1, Hm1, (loc_of_shr_record_exact mrs1 Hex).
  cbn [round_nearest_even].
  destruct (shr_fexp_spec prec emax (Zpos m1) (e + k) loc_Exact)
    as (mrs2 & E2 & Hm2 & _); [lia|].
  rewrite H2 in E2, Hm2. rewrite Z.pow_0_r, Z.div_1_r in Hm2. rewrite Z.add_0_r in E2.
  rewrite E2, Hm2.
  destruct (Z.leb_spec (e + k) (emax - prec)); [reflexivity | lia].
Qed.

(** The float of an integer below 2^53 is that integer, with a mantissa
    of 53 bits. *)
Lemma round_Z_exact (w : Z) :
  0 < w < 2 ^ 53 ->
  exists mz ez,
    round_Z w = S754_finite false mz ez
    /\ -52 <= ez <= 0 /\ Zpos mz = w * 2 ^ (- ez)
    /\ 2 ^ 52 <= Zpos mz < 2 ^ 53.
Proof.
  intros Hw. destruct w as [|p|p]; try lia.
  unfold round_Z, binary_normalize, binary_round.
  destruct (digits2_pos_bounds p) as (Dlo & Dhi).
  set (D := Zpos (digits2_pos p)) in *.
  assert (HD1 : 1 <= D) by (unfold D; lia).
  assert (HD : D <= 53).
  { assert (H : 2 ^ (D - 1) < 2 ^ 53) by lia.
    apply Z.pow_lt_mono_r_iff in H; lia. }
  assert (Ef : SpecFloat.fexp prec emax (D + 0) = D - 53).
  { unfold SpecFloat.fexp, SpecFloat.emin, prec, emax. lia. }
  rewrite Ef.
  destruct (shl_align_exact p 0 (D - 53)) as (mz & -> & Hmz); [lia|].
  replace (0 - (D - 53)) with (53 - D) in Hmz by lia.
  assert (P : 0 < 2 ^ (53 - D)) by (apply Z.pow_pos_nonneg; lia).
  assert (Hnorm : 2 ^ 52 <= Zpos mz < 2 ^ 53).
  { rewrite Hmz. split.
    - replace 52 with (D - 1 + (53 - D)) by lia. rewrite Z.pow_add_r by lia. nia.
    - replace 53 with (D + (53 - D)) at 2 by lia. rewrite Z.pow_add_r by lia. nia. }
  assert (Hdig : Zdigits2 (Zpos mz) = 53).
  { apply Zdigits2_eq; [lia|]. exact Hnorm. }
  exists mz, (D - 53).
  pose proof (binary_round_aux_exact false mz 0 (D - 53)) as R.
  rewrite Z.pow_0_r, Z.mul_1_r, Z.add_0_r in R.
  rewrite R.
  - split; [reflexivity|]. split; [lia|]. split; [|exact Hnorm].
    rewrite Hmz. f_equal. f_equal. lia.
  - lia.
  - rewrite shift_of_binary64, Hdig. lia.
  - rewrite shift_of_binary64, Hdig. lia.
  - unfold emax, prec. lia.
Qed.

Lemma mul_one_exact (mz : positive) (ez : Z) :
  2 ^ 52 <= Zpos mz < 2 ^ 53 -> -1074 <= ez <= 971 ->
  mul (S754_finite false 4503599627370496 (-52)) (S754_finite false mz ez)
  = S754_finite false mz ez.
Proof.
  intros Hnorm He. unfold mul, SFmul. cbn [xorb].
  assert (E52 : Zpos 4503599627370496 = 2 ^ 52) by (vm_compute; reflexivity).
  assert (P52 : 0 < 2 ^ 52) by (apply Z.pow_pos_nonneg; lia).
  assert (Em : Zpos (4503599627370496 * mz) = Zpos mz * 2 ^ 52).
  { rewrite Pos2Z.inj_mul, E52. apply Z.mul_comm. }
  rewrite Em.
  assert (Hdig : Zdigits2 (Zpos mz) = 53) by (apply Zdigits2_eq; [lia | exact Hnorm]).
  assert (Hdig2 : Zdigits2 (Zpos mz * 2 ^ 52) = 105).
  { apply Zdigits2_eq; [lia|]. split.
    - replace (105 - 1) with (52 + 52) by lia. rewrite Z.pow_add_r by lia. nia.
    - replace 105 with (53 + 52) by lia. rewrite Z.pow_add_r by lia. nia. }
  pose proof (binary_round_aux_exact false mz 52 (-52 + ez)) as R.
  replace (-52 + ez + 52) with ez in R by lia.
  apply R.
  - lia.
  - rewrite shift_of_binary64, Hdig2. lia.
  - rewrite shift_of_binary64, Hdig. lia.
  - unfold emax, prec. lia.
Qed.

Lemma filled_blocks_full (w : Z) :
  0 <= w <= 2 ^ 53 -> filled_blocks f100 w = Ok w.
Proof.
  intros Hw. unfold filled_blocks.
  assert (Eq : truediv f100 f100 = Ok (S754_finite false 4503599627370496 (-52)))
    by (vm_compute; reflexivity).
  rewrite Eq. cbn [bind].
  destruct (Z.eq_dec w 0) as [->|H0]; [vm_compute; reflexivity|].
  destruct (Z.eq_dec w (2 ^ 53)) as [->|H53]; [vm_compute; reflexivity|].
  destruct (round_Z_exact w) as (mz & ez & E & Hez & Hmz & Hnorm); [lia|].
  unfold of_int. rewrite E. cbn [bind].
  rewrite mul_one_exact by (try exact Hnorm; lia).
  cbn [to_int cond_Zopp]. f_equal.
  assert (P : 0 < 2 ^ (- ez)) by (apply Z.pow_pos_nonneg; lia).
  destruct (Z.eq_dec ez 0) as [->|Hne].
  - rewrite Z.shiftl_0_r, Hmz. cbn. lia.
  - rewrite Z.shiftl_div_pow2 by lia. rewrite Hmz. apply Z.div_mul. lia.
Qed.

Lemma filled_blocks_empty (w : Z) :
  0 <= w <= 2 ^ 53 -> filled_blocks f0 w = Ok 0.
Proof.
  intros Hw. unfold filled_blocks.
  assert (Eq : truediv f0 f100 = Ok (S754_zero false)) by (vm_compute; reflexivity).
  rewrite Eq. cbn [bind].
  destruct (round_Z_below w Hw) as (Hb & _). unfold of_int.
  destruct (round_Z w) as [s|s| |s m e]; cbn [below] in Hb; try contradiction;
    reflexivity.
Qed.

(** X16: at 100 percent every block of the bar is filled and at 0 percent none
    is, for every width up to 2^53: the division by 100 and the product
    with the width lose nothing at the two ends of the scale. *)
Theorem bar_full_and_empty (w : Z) :
  0 <= w <= 2 ^ 53 ->
  format_bar f100 w
  = Ok (COLOR_RED ++ PyStr.repeat BLOCK w ++ RESET ++ " 100.0%")
  /\ format_bar f0 w
     = Ok (COLOR_GREEN ++ RESET
           ++ (if Z.ltb 0 w then COLOR_DIM ++ PyStr.repeat BLOCK w ++ RESET else "")
           ++ "   0.0%").
Proof.
  intros Hw. unfold format_bar.
  assert (E100 : clamp_percent f100 = f100) by (vm_compute; reflexivity).
  assert (E0 : clamp_percent f0 = f0) by (vm_compute; reflexivity).
  rewrite E100, E0, (filled_blocks_full w Hw), (filled_blocks_empty w Hw).
  cbn [bind]. unfold bar_of. rewrite Z.sub_diag, Z.sub_0_r.
  assert (F100 : format_f 5 1 f100 = "100.0") by (vm_compute; reflexivity).
  assert (F0 : format_f 5 1 f0 = "  0.0") by (vm_compute; reflexivity).
  assert (C100 : color_for_percent f100 = COLOR_RED) by (vm_compute; reflexivity).
  assert (C0 : color_for_percent f0 = COLOR_GREEN) by (vm_compute; reflexivity).
  assert (R0 : PyStr.repeat BLOCK 0 = "") by reflexivity.
  rewrite F100, F0, C100, C0, R0. cbn [Z.ltb Z.compare]. split.
  - f_equal. now rewrite !append_assoc.
  - f_equal. destruct (Z.ltb 0 w); cbn [String.append]; now rewrite ?append_assoc.
Qed.

Lemma bar_full_and_empty_witness :
  format_bar f100 20 = Ok (COLOR_RED ++ PyStr.repeat BLOCK 20 ++ RESET ++ " 100.0%").
Proof.
  apply (proj1 (bar_full_and_empty 20 ltac:(split; [lia | vm_compute; discriminate]))).
Defined.

(** ** Whole numbers among the readings *)

Lemma uint_solid_ends (d : Decimal.uint) (neg : bool) :
  d <> Decimal.Nil ->
  solid_ends ((if neg then "-" else "") ++ NilEmpty.string_of_uint d) = true.
Proof.
  intros Hd.
  assert (Hne : NilEmpty.string_of_uint d <> "") by (destruct d; [congruence|..]; discriminate).
  apply solid_all_ends.
  - destruct neg; [discriminate | exact Hne].
  - rewrite list_ascii_app, forallb_app, solid_uint. now destruct neg.
Qed.

Lemma of_string_uint (d : Decimal.uint) (neg : bool) :
  d <> Decimal.Nil ->
  of_string ((if neg then "-" else "") ++ NilEmpty.string_of_uint d)
  = Some (of_decimal neg (Pos.of_uint d) 0).
Proof.
  intros Hd. unfold of_string. rewrite (strip_solid _ (uint_solid_ends d neg Hd)).
  assert (Hne : list_ascii_of_string (NilEmpty.string_of_uint d) <> [])
    by (destruct d; [congruence|..]; discriminate).
  assert (Ed : drop_underscores None
                 (list_ascii_of_string
                    ((if neg then "-" else "") ++ NilEmpty.string_of_uint d))
               = Some (list_ascii_of_string
                         ((if neg then "-" else "") ++ NilEmpty.string_of_uint d))).
  { destruct neg.
    - cbn [String.append list_ascii_of_string drop_underscores Ascii.eqb Bool.eqb].
      rewrite drop_underscores_uint by (unfold sign_or_digit; cbn [In]; tauto).
      reflexivity.
    - cbn [String.append].
      destruct d; [congruence|..];
        cbn [NilEmpty.string_of_uint list_ascii_of_string drop_underscores
             Ascii.eqb Bool.eqb];
        (rewrite drop_underscores_uint by (unfold sign_or_digit; cbn [In]; tauto));
        reflexivity. }
  rewrite Ed.
  assert (Es : split_sign
                 (list_ascii_of_string
                    ((if neg then "-" else "") ++ NilEmpty.string_of_uint d))
               = (neg, list_ascii_of_string (NilEmpty.string_of_uint d))).
  { destruct neg; [reflexivity|]. cbn [String.append].
    destruct d; [congruence|..]; reflexivity. }
  rewrite Es. unfold parse_decimal.
  rewrite span_digits_uint. cbv beta iota zeta. rewrite app_nil_r.
  destruct (list_ascii_of_string (NilEmpty.string_of_uint d)) as [|c l] eqn:El;
    [congruence|].
  rewrite <- El, digits_value_uint. reflexivity.
Qed.

(** X17: a whole number written in decimal, with any number of blanks around
    it, is read as the float nearest to it, and an integer of magnitude
    below 2^53 is read exactly: [int] of the reading gives it back. *)
Theorem to_float_reads_integers (z : Z) (a b : nat) :
  to_float (Some (blanks a ++ PyStr.of_Z z ++ blanks b)) = Some (round_Z z)
  /\ (0 <= z < 2 ^ 53 -> to_int (round_Z z) = Ok z).
Proof.
  split.
  - destruct (of_Z_shape z) as (d & neg & Hd & -> & Hz & Hneg).
    pose proof (uint_solid_ends d neg Hd) as Hsolid.
    unfold to_float. rewrite (strip_padded _ a b Hsolid).
    rewrite (solid_ends_nonempty _ Hsolid), (of_string_uint d neg Hd). f_equal.
    destruct (Pos.of_uint d) as [|p] eqn:Ep; cbn [Z.of_N] in Hz.
    + destruct neg; cbn in Hz; subst z; [|reflexivity].
      specialize (Hneg eq_refl). lia.
    + unfold of_decimal, round_Z, binary_normalize.
      change (Z.to_pos (10 ^ 0)) with 1%positive. rewrite Pos.mul_1_r.
      destruct neg; cbn [cond_Zopp Z.opp] in Hz; subst z; reflexivity.
  - intros Hz. destruct (Z.eq_dec z 0) as [->|Hne]; [reflexivity|].
    destruct (round_Z_exact z) as (mz & ez & -> & Hez & Hmz & _); [lia|].
    cbn [to_int cond_Zopp]. f_equal.
    assert (P : 0 < 2 ^ (- ez)) by (apply Z.pow_pos_nonneg; lia).
    destruct (Z.eq_dec ez 0) as [->|Hne0].
    + rewrite Z.shiftl_0_r, Hmz. cbn. lia.
    + rewrite Z.shiftl_div_pow2 by lia. rewrite Hmz. apply Z.div_mul. lia.
Qed.

Lemma to_float_reads_integers_witness : to_int (round_Z 16384) = Ok 16384.
Proof.
  apply (proj2 (to_float_reads_integers 16384 0 0)).
  split; [lia | vm_compute; reflexivity].
Defined.

(** ** The CSV pass of the discovery *)

Lemma setdefault_other (m m1 : Metadata) (device_id id : Z) (info : DeviceMetadata) :
  setdefault m device_id = (m1, info) -> id <> device_id ->
  PyDict.get Z.eqb m1 id = PyDict.get Z.eqb m id.
Proof.
  unfold setdefault. destruct (PyDict.get Z.eqb m device_id); intros [= <- <-] Hne;
    [reflexivity | now apply get_set_other].
Qed.

Lemma dump_row_cases (headers row : list string) (m : Metadata) :
  dump_row headers m row = m
  \/ exists device_id info,
       List.length row = List.length headers
       /\ parse_int (PyDict.get String.eqb (PyDict.of_zip String.eqb headers row)
                       "Device ID") = Some device_id
       /\ PyDict.get Z.eqb (dump_row headers m row) device_id = Some info
       /\ forall id, id <> device_id ->
            PyDict.get Z.eqb (dump_row headers m row) id = PyDict.get Z.eqb m id.
Proof.
  unfold dump_row.
  destruct (Nat.eqb_spec (List.length row) (List.length headers)) as [Hlen|Hlen];
    cbn [negb]; [|now left].
  destruct (parse_int _) as [device_id|]; [|now left].
  destruct (setdefault m device_id) as [m1 info] eqn:Esd.
  right. eexists device_id, _. split; [exact Hlen|]. split; [reflexivity|].
  split; [apply get_set_same|].
  intros id Hne. rewrite get_set_other by exact Hne.
  exact (setdefault_other _ _ _ _ _ Esd Hne).
Qed.

(** X18: the rows of the CSV discovery only touch their own devices: after
    any number of rows every device known before is still known, and the
    entry of a device is what it was unless some row of the header's length
    carries its id in the [Device ID] column. *)
Theorem csv_rows_touch_own_device (headers : list string)
  (rows : list (list string)) (m : Metadata) (id : Z) :
  (PyDict.get Z.eqb m id <> None ->
   PyDict.get Z.eqb (fold_left (dump_row headers) rows m) id <> None)
  /\ ((forall row, In row rows -> List.length row = List.length headers ->
         parse_int (PyDict.get String.eqb (PyDict.of_zip String.eqb headers row)
                      "Device ID") <> Some id) ->
      PyDict.get Z.eqb (fold_left (dump_row headers) rows m) id
      = PyDict.get Z.eqb m id).
Proof.
  revert m. induction rows as [|row rows IH]; intros m; cbn [fold_left].
  - split; [auto | reflexivity].
  - destruct (IH (dump_row headers m row)) as (Hkeep & Hframe).
    destruct (dump_row_cases headers row m) as [E|(dev & info & Hlen & Hid & Hget & Hother)].
    + rewrite E in *. split; [exact Hkeep|].
      intros Hrows. apply Hframe. intros r Hr. apply Hrows. now right.
    + split.
      * intros Hin. apply Hkeep. destruct (Z.eq_dec id dev) as [->|Hne].
        -- rewrite Hget. discriminate.
        -- now rewrite (Hother id Hne).
      * intros Hrows. rewrite Hframe by (intros r Hr; apply Hrows; now right).
        apply Hother. intros ->.
        exact (Hrows row (or_introl eq_refl) Hlen Hid).
Qed.

Lemma csv_rows_touch_own_device_witness :
  PyDict.get Z.eqb
    (fold_left (dump_row ["Device ID"; "Device Name"])
       [["1"; "Arc"]; ["x"; "skipped"]; ["1"]] [(0, DeviceMetadata_default)]) 0
  = Some DeviceMetadata_default.
Proof.
  apply (proj2 (csv_rows_touch_own_device ["Device ID"; "Device Name"]
                  [["1"; "Arc"]; ["x"; "skipped"]; ["1"]]
                  [(0, DeviceMetadata_default)] 0)).
  intros row [<-|[<-|[<-|[]]]] Hlen; vm_compute; discriminate.
Defined.
